(** * Digital library: the lending rules of [app.py] over the tables of [models.py]

    The three SQLAlchemy tables are finite maps from the primary key to the
    row, every Flask view that changes the store is a function from the
    store to a response and a new store, and the form classes of [forms.py]
    are the validation predicates in front of the views. *)

From Stdlib Require Import ZArith String Ascii List.
From stdpp Require Import gmap strings fin_maps fin_map_dom.

Local Open Scope string_scope.
Local Open Scope Z_scope.

(** ** models.py *)

(** [datetime] values are counted in microseconds, the resolution of Python's
    [datetime]; [timedelta(days=d)] is the matching number of microseconds. *)
Definition timedelta_days (d : Z) : Z := d * 86400 * 1000000.

(** Rows do not repeat their primary key [id]: it is the key of the table. *)
Module User.
Record t := mk {
  username : string;
  email : string;
  password : string;
  role : string;
  registration_date : Z
}.
End User.

Module Book.
Record t := mk {
  title : string;
  author : string;
  isbn : string;
  category : string;
  description : string;
  cover_image : string;
  quantity : Z;
  available_quantity : Z;
  publication_year : option Z
}.

Definition set_available_quantity (b : t) (n : Z) : t :=
  mk (title b) (author b) (isbn b) (category b) (description b)
     (cover_image b) (quantity b) n (publication_year b).

(** [Book.is_available] *)
Definition is_available (b : t) : bool := bool_decide (available_quantity b > 0).
End Book.

Module BorrowRecord.
Record t := mk {
  user_id : Z;
  book_id : Z;
  borrow_date : Z;
  return_date : option Z;
  due_date : Z;
  status : string
}.

Definition set_status (r : t) (s : string) : t :=
  mk (user_id r) (book_id r) (borrow_date r) (return_date r) (due_date r) s.

Definition set_return_date (r : t) (d : Z) : t :=
  mk (user_id r) (book_id r) (borrow_date r) (Some d) (due_date r) (status r).

(** [BorrowRecord.is_overdue]; [now] is what [datetime.utcnow()] returns
    when the property is read. *)
Definition is_overdue (now : Z) (r : t) : bool :=
  if decide (status r = "returned") then false
  else bool_decide (now > due_date r).

(** [BorrowRecord.days_until_due]: the [days] of a [timedelta] is the
    difference counted in whole days, rounded down (negative once the due
    date has passed). *)
Definition days_until_due (now : Z) (r : t) : Z :=
  Z.div (due_date r - now) (timedelta_days 1).
End BorrowRecord.

#[global] Instance User_eq_dec : EqDecision User.t.
Proof. solve_decision. Defined.
#[global] Instance Book_eq_dec : EqDecision Book.t.
Proof. solve_decision. Defined.
#[global] Instance BorrowRecord_eq_dec : EqDecision BorrowRecord.t.
Proof. solve_decision. Defined.

(** The database: the tables [users], [books] and [borrow_records]. *)
Record DB := mkDB {
  users : gmap Z User.t;
  books : gmap Z Book.t;
  borrow_records : gmap Z BorrowRecord.t
}.

Definition empty_db : DB := mkDB ∅ ∅ ∅.

(** ** The queries the views use *)

(** [query.filter_by(...)]: the rows that satisfy the condition. *)
Definition filter_by {A} (P : A → Prop) `{!∀ x, Decision (P x)}
    (table : gmap Z A) : gmap Z A :=
  filter (λ kr, P kr.2) table.

(** [query.first()]: some row of the result, [None] when there is none.  The
    views only test the answer for truth. *)
Definition first {A} (q : gmap Z A) : option (Z * A) := head (map_to_list q).

(** [query.count()] *)
Definition count {A} (q : gmap Z A) : Z := Z.of_nat (size q).

(** The key SQLite gives an inserted row of a table with an integer primary
    key: one more than the largest key in use, 1 in an empty table. *)
Definition next_id {A} (table : gmap Z A) : Z :=
  1 + map_fold (λ k _ acc, Z.max k acc) 0 table.

(** ** Responses *)

(** One constructor for each way a view ends; the names are those of the
    error taxonomy, the comment gives the flashed message or the status. *)
Inductive Outcome :=
  | Ok                (* the view ran to its last redirect or render *)
  | LoginRequired     (* @login_required: 'Please log in to access this page.' *)
  | AlreadyLoggedIn   (* register, login: redirect to the dashboard *)
  | RoleDenied        (* 'Only students can borrow books.', 'Access denied.',
                         'Access denied. Librarian privileges required.',
                         or the redirect to the other role's dashboard *)
  | NotFound          (* get_or_404 *)
  | Unavailable       (* 'Sorry, this book is currently not available.' *)
  | DuplicateBorrow   (* 'You have already borrowed this book.' *)
  | AlreadyReturned   (* 'This book has already been returned.' *)
  | Conflict          (* 'Cannot delete book with active borrows. Please wait for returns.' *)
  | DuplicateISBN     (* 'A book with this ISBN already exists.' *)
  | ValidationError   (* validate_on_submit() is false: the form is rendered again *)
  | ServerError.      (* errorhandler(500): the session is rolled back *)

#[global] Instance Outcome_eq_dec : EqDecision Outcome.
Proof. solve_decision. Defined.

(** ** app.py: sessions and ids *)

(** [get_or_404] for an id that is no key of its table.  An id of 2^63 or
    more does not fit SQLite's INTEGER: the driver raises OverflowError when
    the query is sent and the 500 handler answers.  No table has such a key,
    so the test stands where the lookup found nothing. *)
Definition no_row (id : Z) : Outcome :=
  if decide (2 ^ 63 ≤ id) then ServerError else NotFound.

(** [load_user]: the session holds a user id; [current_user] is that row of
    [users], anonymous when the session is empty or the row is gone. *)
Definition current_user (db : DB) (session : option Z) : option (Z * User.t) :=
  uid ← session; u ← users db !! uid; Some (uid, u).

(** ** app.py: student views *)

(** [borrow_book]: [now1] and [now2] are the two readings of
    [datetime.utcnow()], for [borrow_date] and for [due_date]. *)
Definition borrow_book (session : option Z) (now1 now2 : Z) (book_id : Z)
    (db : DB) : Outcome * DB :=
  match current_user db session with
  | None => (LoginRequired, db)
  | Some (uid, cur) =>
    if decide (User.role cur ≠ "student") then (RoleDenied, db) else
    match books db !! book_id with
    | None => (no_row book_id, db)
    | Some book =>
      if decide (Book.available_quantity book < 1) then (Unavailable, db) else
      let existing_borrow :=
        first (filter_by (λ r, BorrowRecord.user_id r = uid
                               ∧ BorrowRecord.book_id r = book_id
                               ∧ BorrowRecord.status r = "borrowed")
                         (borrow_records db)) in
      match existing_borrow with
      | Some _ => (DuplicateBorrow, db)
      | None =>
        let borrow_record :=
          BorrowRecord.mk uid book_id now1 None
                          (now2 + timedelta_days 14) "borrowed" in
        let book' :=
          Book.set_available_quantity book (Book.available_quantity book - 1) in
        (Ok, mkDB (users db)
                  (<[book_id := book']> (books db))
                  (<[next_id (borrow_records db) := borrow_record]>
                     (borrow_records db)))
      end
    end
  end.

(** [return_book].  [Book.query.get] gives [None] for a missing book and the
    next line then raises: the 500 handler rolls the session back. *)
Definition return_book (session : option Z) (now : Z) (record_id : Z)
    (db : DB) : Outcome * DB :=
  match current_user db session with
  | None => (LoginRequired, db)
  | Some (uid, cur) =>
    match borrow_records db !! record_id with
    | None => (no_row record_id, db)
    | Some borrow_record =>
      if decide (BorrowRecord.user_id borrow_record ≠ uid
                 ∧ User.role cur ≠ "librarian")
      then (RoleDenied, db) else
      if decide (BorrowRecord.status borrow_record = "returned")
      then (AlreadyReturned, db) else
      let borrow_record' :=
        BorrowRecord.set_status
          (BorrowRecord.set_return_date borrow_record now) "returned" in
      match books db !! BorrowRecord.book_id borrow_record with
      | None => (ServerError, db)
      | Some book =>
        let book' :=
          Book.set_available_quantity book (Book.available_quantity book + 1) in
        (Ok, mkDB (users db)
                  (<[BorrowRecord.book_id borrow_record := book']> (books db))
                  (<[record_id := borrow_record']> (borrow_records db)))
      end
    end
  end.

(** The loop [for record in rows: if record.is_overdue: record.status =
    'overdue'] over the rows selected by [sel].  [clock rid] is the reading of
    [datetime.utcnow()] taken when the loop reaches row [rid]. *)
Definition refresh_overdue (sel : BorrowRecord.t → Prop)
    `{!∀ r, Decision (sel r)} (clock : Z → Z)
    (table : gmap Z BorrowRecord.t) : gmap Z BorrowRecord.t :=
  map_imap (λ rid r,
    Some (if decide (sel r) then
            if BorrowRecord.is_overdue (clock rid) r
            then BorrowRecord.set_status r "overdue" else r
          else r)) table.

(** [student_dashboard]: the sweep runs over the student's own rows with
    status 'borrowed'. *)
Definition student_dashboard (session : option Z) (clock : Z → Z)
    (db : DB) : Outcome * DB :=
  match current_user db session with
  | None => (LoginRequired, db)
  | Some (uid, cur) =>
    if decide (User.role cur ≠ "student") then (RoleDenied, db) else
    (Ok, mkDB (users db) (books db)
              (refresh_overdue (λ r, BorrowRecord.user_id r = uid
                                     ∧ BorrowRecord.status r = "borrowed")
                               clock (borrow_records db)))
  end.

(** ** app.py: librarian views *)

(** [@login_required] followed by [@librarian_required]: the librarian behind
    the session, or the response that turns the request away. *)
Definition librarian_required (db : DB) (session : option Z)
    : Outcome + (Z * User.t) :=
  match current_user db session with
  | None => inl LoginRequired
  | Some (uid, cur) =>
    if decide (User.role cur ≠ "librarian") then inl RoleDenied
    else inr (uid, cur)
  end.

(** [librarian_dashboard]: the sweep runs over all rows with status
    'borrowed'. *)
Definition librarian_dashboard (session : option Z) (clock : Z → Z)
    (db : DB) : Outcome * DB :=
  match librarian_required db session with
  | inl denied => (denied, db)
  | inr _ =>
    (Ok, mkDB (users db) (books db)
              (refresh_overdue (λ r, BorrowRecord.status r = "borrowed")
                               clock (borrow_records db)))
  end.

(** ** forms.py *)

(** A Python string is held as its UTF-8 encoding.  [decode_utf8] gives the
    characters (code points) of a sequence of bytes, [None] when the bytes
    encode no string. *)
Definition continuation (b : Z) : bool := (128 <=? b) && (b <? 192).

Fixpoint decode_utf8 (bs : list Z) : option (list Z) :=
  match bs with
  | [] => Some []
  | b0 :: r0 =>
    if b0 <? 128 then cons b0 <$> decode_utf8 r0 else
    match r0 with
    | [] => None
    | b1 :: r1 =>
      if (192 <=? b0) && (b0 <? 224) then
        let c := (b0 - 192) * 64 + (b1 - 128) in
        if continuation b1 && (128 <=? c)
        then cons c <$> decode_utf8 r1 else None
      else
      match r1 with
      | [] => None
      | b2 :: r2 =>
        if (224 <=? b0) && (b0 <? 240) then
          let c := (b0 - 224) * 4096 + (b1 - 128) * 64 + (b2 - 128) in
          if continuation b1 && continuation b2 && (2048 <=? c)
             && negb ((55296 <=? c) && (c <=? 57343))
          then cons c <$> decode_utf8 r2 else None
        else
        match r2 with
        | [] => None
        | b3 :: r3 =>
          if (240 <=? b0) && (b0 <? 248) then
            let c := (b0 - 240) * 262144 + (b1 - 128) * 4096
                     + (b2 - 128) * 64 + (b3 - 128) in
            if continuation b1 && continuation b2 && continuation b3
               && (65536 <=? c) && (c <=? 1114111)
            then cons c <$> decode_utf8 r3 else None
          else None
        end
      end
    end
  end.

Definition utf8_bytes (s : string) : list Z :=
  (λ a, Z.of_nat (nat_of_ascii a)) <$> list_ascii_of_string s.

(** The strings of the model that are Python strings. *)
Definition valid_utf8 (s : string) : Prop :=
  is_Some (decode_utf8 (utf8_bytes s)).

(** The characters of a string. *)
Definition code_points (s : string) : list Z :=
  default [] (decode_utf8 (utf8_bytes s)).

(** [len]: the number of characters. *)
Definition len (s : string) : Z := Z.of_nat (length (code_points s)).

Definition in_ranges (table : list (Z * Z)) (c : Z) : bool :=
  existsb (λ r, (r.1 <=? c) && (c <=? r.2)) table.

(** [str.isspace] on one character; these are the characters [str.strip]
    takes off. *)
Definition isspace (c : Z) : bool :=
  in_ranges [(9, 13); (28, 32); (133, 133); (160, 160); (5760, 5760);
             (8192, 8202); (8232, 8233); (8239, 8239); (8287, 8287);
             (12288, 12288)] c.

(** The characters for which [str.isdigit] holds: the decimal digits of all
    scripts and the other digits such as superscripts (the table of Unicode
    14.0, which Python 3.11 has). *)
Definition digit_ranges : list (Z * Z) :=
  [(48, 57); (178, 179); (185, 185); (1632, 1641); (1776, 1785);
   (1984, 1993); (2406, 2415); (2534, 2543); (2662, 2671); (2790, 2799);
   (2918, 2927); (3046, 3055); (3174, 3183); (3302, 3311); (3430, 3439);
   (3558, 3567); (3664, 3673); (3792, 3801); (3872, 3881); (4160, 4169);
   (4240, 4249); (4969, 4977); (6112, 6121); (6160, 6169); (6470, 6479);
   (6608, 6618); (6784, 6793); (6800, 6809); (6992, 7001); (7088, 7097);
   (7232, 7241); (7248, 7257); (8304, 8304); (8308, 8313); (8320, 8329);
   (9312, 9320); (9332, 9340); (9352, 9360); (9450, 9450); (9461, 9469);
   (9471, 9471); (10102, 10110); (10112, 10120); (10122, 10130);
   (42528, 42537); (43216, 43225); (43264, 43273); (43472, 43481);
   (43504, 43513); (43600, 43609); (44016, 44025); (65296, 65305);
   (66720, 66729); (68160, 68163); (68912, 68921); (69216, 69224);
   (69714, 69722); (69734, 69743); (69872, 69881); (69942, 69951);
   (70096, 70105); (70384, 70393); (70736, 70745); (70864, 70873);
   (71248, 71257); (71360, 71369); (71472, 71481); (71904, 71913);
   (72016, 72025); (72784, 72793); (73040, 73049); (73120, 73129);
   (92768, 92777); (92864, 92873); (93008, 93017); (120782, 120831);
   (123200, 123209); (123632, 123641); (125264, 125273); (127232, 127242);
   (130032, 130041)].

Definition isdigit_char (c : Z) : bool := in_ranges digit_ranges c.

(** wtforms' [DataRequired] on a string field: the data is not empty once
    stripped of white space. *)
Definition DataRequired (data : string) : bool :=
  existsb (λ c, negb (isspace c)) (code_points data).

(** wtforms' [Length(min, max)]. *)
Definition Length (min max : option Z) (data : string) : bool :=
  match min with Some lo => bool_decide (lo ≤ len data) | None => true end
  && match max with Some hi => bool_decide (len data ≤ hi) | None => true end.

(** wtforms' [NumberRange(min, max)] on an [IntegerField]; the data is
    [None] when the input was no integer. *)
Definition NumberRange (min max : Z) (data : option Z) : bool :=
  match data with
  | None => false
  | Some n => bool_decide (min ≤ n ≤ max)
  end.

(** wtforms' [SelectField] accepts only one of its choices. *)
Definition valid_choice (choices : list string) (data : string) : bool :=
  bool_decide (data ∈ choices).

(** What the web framework brings in and the repository does not define:
    wtforms' [Email] validator and werkzeug's [generate_password_hash]. *)
Class Framework := {
  Email : string → bool;
  generate_password_hash : string → string
}.

Module RegistrationForm.
Record t := mk {
  username : string;
  email : string;
  password : string;
  confirm_password : string;
  role : string
}.

Definition set_role (form : t) (r : string) : t :=
  mk (username form) (email form) (password form) (confirm_password form) r.

Definition role_choices : list string := ["student"; "librarian"].

(** The inline validators raise [ValidationError] with a message ([Some])
    or return ([None]). *)
Definition validate_username (db : DB) (data : string) : option string :=
  match first (filter_by (λ u, User.username u = data) (users db)) with
  | Some _ => Some "Username already exists. Please choose a different one."
  | None => None
  end.

Definition validate_email (db : DB) (data : string) : option string :=
  match first (filter_by (λ u, User.email u = data) (users db)) with
  | Some _ => Some "Email already registered. Please use a different email."
  | None => None
  end.

(** [form.validate()]: every field passes its validators and its inline
    validator. *)
Definition validate `{Framework} (db : DB) (form : t) : bool :=
  (DataRequired (username form)
     && Length (Some 3) (Some 20) (username form)
     && bool_decide (validate_username db (username form) = None))
  && (DataRequired (email form)
     && Email (email form)
     && bool_decide (validate_email db (email form) = None))
  && (DataRequired (password form)
     && Length (Some 8) None (password form))
  && (DataRequired (confirm_password form)
     && bool_decide (confirm_password form = password form))
  && (valid_choice role_choices (role form) && DataRequired (role form)).
End RegistrationForm.

Module BookForm.
Record t := mk {
  title : string;
  author : string;
  isbn : string;
  category : string;
  description : string;
  quantity : option Z;
  publication_year : option Z
}.

Definition category_choices : list string :=
  ["Fiction"; "Non-Fiction"; "Science"; "Technology"; "History";
   "Biography"; "Mystery"; "Romance"; "Fantasy"; "Self-Help"; "Business";
   "Literature"].

(** [str.replace(c, '')] for a one-character [c]. *)
Fixpoint remove_char (c : ascii) (s : string) : string :=
  match s with
  | EmptyString => EmptyString
  | String a s' =>
    if Ascii.eqb a c then remove_char c s' else String a (remove_char c s')
  end.

(** [str.isdigit]: there is a character and every character is a digit. *)
Definition isdigit (s : string) : bool :=
  match code_points s with
  | [] => false
  | cs => forallb isdigit_char cs
  end.

Definition validate_isbn (data : string) : option string :=
  let isbn_clean := remove_char " " (remove_char "-" data) in
  if negb (isdigit isbn_clean) then Some "ISBN should contain only numbers"
  else if negb (bool_decide (len isbn_clean ∈ [10; 13]))
  then Some "ISBN must be 10 or 13 digits"
  else None.

(** [DataRequired] on an [IntegerField]: the data is an integer other than
    0. *)
Definition DataRequired_int (data : option Z) : bool :=
  match data with
  | None => false
  | Some n => bool_decide (n ≠ 0)
  end.

Definition validate (form : t) : bool :=
  (DataRequired (title form) && Length None (Some 200) (title form))
  && (DataRequired (author form) && Length None (Some 100) (author form))
  && (DataRequired (isbn form)
     && Length (Some 10) (Some 13) (isbn form)
     && bool_decide (validate_isbn (isbn form) = None))
  && (valid_choice category_choices (category form)
     && DataRequired (category form))
  && Length None (Some 1000) (description form)
  && (DataRequired_int (quantity form)
     && NumberRange 1 1000 (quantity form))
  && NumberRange 1000 2025 (publication_year form).
End BookForm.

(** ** app.py: registration and the catalog views *)

(** [db.session.add(row)] and [commit] for a new row. *)
Definition add {A} (row : A) (table : gmap Z A) : gmap Z A :=
  <[next_id table := row]> table.

(** [register]; [now] is the reading of [datetime.utcnow] that the column
    default of [registration_date] takes. *)
Definition register `{Framework} (session : option Z) (now : Z)
    (form : RegistrationForm.t) (db : DB) : Outcome * DB :=
  match current_user db session with
  | Some _ => (AlreadyLoggedIn, db)
  | None =>
    if RegistrationForm.validate db form then
      let user :=
        User.mk (RegistrationForm.username form)
                (RegistrationForm.email form)
                (generate_password_hash (RegistrationForm.password form))
                (RegistrationForm.role form)
                now in
      (Ok, mkDB (add user (users db)) (books db) (borrow_records db))
    else (ValidationError, db)
  end.

(** The integer of an [IntegerField] that passed its validators. *)
Definition int_data (data : option Z) : Z := default 0 data.

Definition add_book (session : option Z) (form : BookForm.t)
    (db : DB) : Outcome * DB :=
  match librarian_required db session with
  | inl denied => (denied, db)
  | inr _ =>
    if BookForm.validate form then
      let existing_book :=
        first (filter_by (λ b, Book.isbn b = BookForm.isbn form) (books db)) in
      match existing_book with
      | Some _ => (DuplicateISBN, db)
      | None =>
        let book :=
          Book.mk (BookForm.title form) (BookForm.author form)
                  (BookForm.isbn form) (BookForm.category form)
                  (BookForm.description form) "default_book.jpg"
                  (int_data (BookForm.quantity form))
                  (int_data (BookForm.quantity form))
                  (BookForm.publication_year form) in
        (Ok, mkDB (users db) (add book (books db)) (borrow_records db))
      end
    else (ValidationError, db)
  end.

(** [edit_book].  The column [isbn] is unique: the commit of an ISBN that
    another book holds raises, and the 500 handler rolls back. *)
Definition edit_book (session : option Z) (book_id : Z) (form : BookForm.t)
    (db : DB) : Outcome * DB :=
  match librarian_required db session with
  | inl denied => (denied, db)
  | inr _ =>
    match books db !! book_id with
    | None => (no_row book_id, db)
    | Some book =>
      if BookForm.validate form then
        let borrowed_count := Book.quantity book - Book.available_quantity book in
        let book' :=
          Book.mk (BookForm.title form) (BookForm.author form)
                  (BookForm.isbn form) (BookForm.category form)
                  (BookForm.description form) (Book.cover_image book)
                  (int_data (BookForm.quantity form))
                  (int_data (BookForm.quantity form) - borrowed_count)
                  (BookForm.publication_year form) in
        match first (filter (λ kb, kb.1 ≠ book_id
                                   ∧ Book.isbn kb.2 = BookForm.isbn form)
                            (books db)) with
        | Some _ => (ServerError, db)
        | None =>
          (Ok, mkDB (users db) (<[book_id := book']> (books db))
                    (borrow_records db))
        end
      else (ValidationError, db)
    end
  end.

(** [delete_book].  The relationship [Book.borrow_records] cascades the
    deletion to the rows of [borrow_records] that reference the book. *)
Definition delete_book (session : option Z) (book_id : Z)
    (db : DB) : Outcome * DB :=
  match librarian_required db session with
  | inl denied => (denied, db)
  | inr _ =>
    match books db !! book_id with
    | None => (no_row book_id, db)
    | Some book =>
      let active_borrows :=
        count (filter_by (λ r, BorrowRecord.book_id r = book_id
                               ∧ BorrowRecord.status r = "borrowed")
                         (borrow_records db)) in
      if decide (active_borrows > 0) then (Conflict, db) else
      (Ok, mkDB (users db) (delete book_id (books db))
                (filter_by (λ r, BorrowRecord.book_id r ≠ book_id)
                           (borrow_records db)))
    end
  end.

(** ** app.py: the sample data of [init_db] *)

(** username, email, password, role *)
Definition sample_users : list (string * string * string * string) :=
  [("admin", "admin@library.com", "admin123", "librarian");
   ("john_doe", "john@student.com", "student123", "student");
   ("jane_smith", "jane@student.com", "student123", "student");
   ("bob_wilson", "bob@student.com", "student123", "student")].

Definition sample_book (title author isbn category description : string)
    (quantity publication_year : Z) : Book.t :=
  Book.mk title author isbn category description "default_book.jpg"
          quantity quantity (Some publication_year).

Definition sample_books : list Book.t :=
  [sample_book "Python Programming" "John Smith" "9781234567897" "Technology"
     "A comprehensive guide to Python programming for beginners and experts."
     5 2023;
   sample_book "Web Development Fundamentals" "Sarah Johnson" "9781234567898"
     "Technology"
     "Learn HTML, CSS, JavaScript, and modern web development practices."
     4 2022;
   sample_book "Data Science Essentials" "Michael Brown" "9781234567899"
     "Science"
     "Master data analysis, visualization, and machine learning basics."
     3 2023;
   sample_book "The Great Gatsby" "F. Scott Fitzgerald" "9780743273565"
     "Fiction" "A classic American novel set in the Jazz Age." 6 1925;
   sample_book "1984" "George Orwell" "9780451524935" "Fiction"
     "A dystopian social science fiction novel." 5 1949;
   sample_book "Sapiens" "Yuval Noah Harari" "9780062316097" "History"
     "A brief history of humankind from the Stone Age to modern times."
     4 2011;
   sample_book "Atomic Habits" "James Clear" "9780735211292" "Self-Help"
     "An easy and proven way to build good habits and break bad ones."
     7 2018;
   sample_book "The Lean Startup" "Eric Ries" "9780307887894" "Business"
     "How constant innovation creates radically successful businesses."
     3 2011].

(** [init_db]: the sample rows are written when [users] is empty.  [clock uid]
    is the reading the default of [registration_date] takes for user [uid].
    When a sample ISBN is already in [books] the commit raises and nothing is
    written. *)
Definition init_db `{Framework} (clock : Z → Z) (db : DB) : DB :=
  match first (users db) with
  | Some _ => db
  | None =>
    if decide (map_Exists (λ _ b, Book.isbn b ∈ Book.isbn <$> sample_books)
                          (books db))
    then db
    else
      let add_user table '(username, email, password, role) :=
        <[next_id table :=
            User.mk username email (generate_password_hash password) role
                    (clock (next_id table))]> table in
      mkDB (foldl add_user (users db) sample_users)
           (foldl (λ table book, add book table) (books db) sample_books)
           (borrow_records db)
  end.

(** ** The requests that change the store *)

(** The ids are those of the URL, which the converter [<int:...>] lets
    through when they are not negative. *)
Inductive Request :=
  | InitDb (clock : Z → Z)
  | Register (session : option Z) (now : Z) (form : RegistrationForm.t)
  | BorrowBook (session : option Z) (now1 now2 : Z) (book_id : Z)
  | ReturnBook (session : option Z) (now : Z) (record_id : Z)
  | StudentDashboard (session : option Z) (clock : Z → Z)
  | LibrarianDashboard (session : option Z) (clock : Z → Z)
  | AddBook (session : option Z) (form : BookForm.t)
  | EditBook (session : option Z) (book_id : Z) (form : BookForm.t)
  | DeleteBook (session : option Z) (book_id : Z).

Definition handle `{Framework} (req : Request) (db : DB) : Outcome * DB :=
  match req with
  | InitDb clock => (Ok, init_db clock db)
  | Register session now form => register session now form db
  | BorrowBook session now1 now2 book_id =>
      borrow_book session now1 now2 book_id db
  | ReturnBook session now record_id => return_book session now record_id db
  | StudentDashboard session clock => student_dashboard session clock db
  | LibrarianDashboard session clock => librarian_dashboard session clock db
  | AddBook session form => add_book session form db
  | EditBook session book_id form => edit_book session book_id form db
  | DeleteBook session book_id => delete_book session book_id db
  end.

(** The store after a sequence of requests. *)
Definition run `{Framework} (reqs : list Request) (db : DB) : DB :=
  foldl (λ db req, (handle req db).2) db reqs.

(** The stores the application can be in: it starts with empty tables. *)
Inductive reachable `{Framework} : DB → Prop :=
  | reachable_empty : reachable empty_db
  | reachable_step req db : reachable db → reachable (handle req db).2.

(** ** app.py: views that only read *)

(** [book_details]: the book and the flag [user_has_borrowed] the template
    is given. *)
Definition book_details (session : option Z) (book_id : Z) (db : DB)
    : Outcome + (Book.t * bool) :=
  match current_user db session with
  | None => inl LoginRequired
  | Some (uid, cur) =>
    match books db !! book_id with
    | None => inl (no_row book_id)
    | Some book =>
      let user_has_borrowed :=
        if decide (User.role cur = "student") then
          match first (filter_by (λ r, BorrowRecord.user_id r = uid
                                       ∧ BorrowRecord.book_id r = book_id
                                       ∧ BorrowRecord.status r = "borrowed")
                                 (borrow_records db)) with
          | Some _ => true
          | None => false
          end
        else false in
      inr (book, user_has_borrowed)
    end
  end.

(** ** The catalog invariants *)

(** The rows of [borrow_records] for book [book_id] that are not returned. *)
Definition open_records (book_id : Z) (table : gmap Z BorrowRecord.t)
    : gmap Z BorrowRecord.t :=
  filter_by (λ r, BorrowRecord.book_id r = book_id
                  ∧ BorrowRecord.status r ≠ "returned") table.

(** The copies of a book that are out, as the ledger has them. *)
Definition borrowed_count (book_id : Z) (db : DB) : Z :=
  count (open_records book_id (borrow_records db)).

(** [0 ≤ available_quantity ≤ quantity] for every book. *)
Definition counts_ok (db : DB) : Prop :=
  ∀ book_id book, books db !! book_id = Some book →
    0 ≤ Book.available_quantity book ≤ Book.quantity book.

(** The ledger and the catalog agree: every row of [borrow_records] is for a
    book of the catalog, and the copies of a book that are not available are
    those its open rows account for. *)
Definition ledger_ok (db : DB) : Prop :=
  (∀ record_id r, borrow_records db !! record_id = Some r →
     is_Some (books db !! BorrowRecord.book_id r))
  ∧ (∀ book_id book, books db !! book_id = Some book →
       Book.quantity book - Book.available_quantity book
       = borrowed_count book_id db).

(** ** Invariants of the three tables *)

(** No two books have the same ISBN. *)
Definition isbn_unique (db : DB) : Prop :=
  ∀ i j b1 b2, books db !! i = Some b1 → books db !! j = Some b2 →
    Book.isbn b1 = Book.isbn b2 → i = j.

(** [1 ≤ quantity ≤ 1000], the range of the form field. *)
Definition quantities_ok (db : DB) : Prop :=
  ∀ book_id book, books db !! book_id = Some book →
    1 ≤ Book.quantity book ≤ 1000.

(** No two accounts have the same username, and no two the same email. *)
Definition accounts_unique (db : DB) : Prop :=
  ∀ i j u1 u2, users db !! i = Some u1 → users db !! j = Some u2 →
    User.username u1 = User.username u2 ∨ User.email u1 = User.email u2 →
    i = j.

(** Every account is a student or a librarian. *)
Definition roles_ok (db : DB) : Prop :=
  ∀ uid u, users db !! uid = Some u →
    User.role u = "student" ∨ User.role u = "librarian".

(** The life of a record: its status is one of the three, the return date is
    there exactly when the status is 'returned', and its account is a
    student of the directory. *)
Definition records_ok (db : DB) : Prop :=
  ∀ rid r, borrow_records db !! rid = Some r →
    (BorrowRecord.status r = "borrowed" ∨ BorrowRecord.status r = "overdue"
     ∨ BorrowRecord.status r = "returned")
    ∧ (is_Some (BorrowRecord.return_date r)
       ↔ BorrowRecord.status r = "returned")
    ∧ (∃ u, users db !! BorrowRecord.user_id r = Some u
            ∧ User.role u = "student").

(** An account has at most one record with status 'borrowed' for a book. *)
Definition one_borrowed_per_pair (db : DB) : Prop :=
  ∀ i j r1 r2, borrow_records db !! i = Some r1 →
    borrow_records db !! j = Some r2 →
    BorrowRecord.user_id r1 = BorrowRecord.user_id r2 →
    BorrowRecord.book_id r1 = BorrowRecord.book_id r2 →
    BorrowRecord.status r1 = "borrowed" →
    BorrowRecord.status r2 = "borrowed" → i = j.

(** The session a request comes with; [init_db] runs outside a request. *)
Definition request_session (req : Request) : option Z :=
  match req with
  | InitDb _ => None
  | Register session _ _ | BorrowBook session _ _ _ | ReturnBook session _ _
  | StudentDashboard session _ | LibrarianDashboard session _
  | AddBook session _ | EditBook session _ _ | DeleteBook session _ => session
  end.

(** ** Concrete requests, for running the views *)

(** A stand-in for the framework: every address passes [Email] and the hash
    is the password behind a prefix. *)
Definition stub_framework : Framework :=
  {| Email := λ _, true; generate_password_hash := λ p, "hash:" +:+ p |}.

Definition day : Z := timedelta_days 1.

(** The store after [init_db]: admin is user 1, the students are users 2 to
    4, the books are 1 to 8. *)
Definition seeded : DB := init_db (H := stub_framework) (λ _, 0) empty_db.

(** The three students each hold a copy of book 1, of which there are 5. *)
Definition three_out : DB :=
  run (H := stub_framework)
      [BorrowBook (Some 2) day day 1; BorrowBook (Some 3) day day 1;
       BorrowBook (Some 4) day day 1] seeded.

(** The three students hold the 3 copies of book 3. *)
Definition none_left : DB :=
  run (H := stub_framework)
      [BorrowBook (Some 2) day day 3; BorrowBook (Some 3) day day 3;
       BorrowBook (Some 4) day day 3] seeded.

(** Student 2 borrowed book 1 on day 1 and the librarian opened the
    dashboard on day 20. *)
Definition one_overdue : DB :=
  run (H := stub_framework)
      [BorrowBook (Some 2) day day 1;
       LibrarianDashboard (Some 1) (λ _, 20 * day)] seeded.

(** Student 2 holds a copy of book 1, borrowed on day 1. *)
Definition one_out : DB :=
  run (H := stub_framework) [BorrowBook (Some 2) day day 1] seeded.

(** The form that sets the total of book 1 to [quantity]. *)
Definition python_programming (quantity : Z) : BookForm.t :=
  BookForm.mk "Python Programming" "John Smith" "9781234567897" "Technology"
              "A comprehensive guide." (Some quantity) (Some 2023).

Definition new_librarian : RegistrationForm.t :=
  RegistrationForm.mk "mallory" "mallory@example.com" "correct horse"
                      "correct horse" "librarian".

Definition new_book : BookForm.t :=
  BookForm.mk "Dune" "Frank Herbert" "9780441172719" "Fiction" ""
              (Some 2) (Some 1965).

(** * Properties *)

(** ** Queries *)

Section Queries.
Context {A : Type} (P : A → Prop) `{!∀ x, Decision (P x)}.
Implicit Types table : gmap Z A.

Lemma first_None (q : gmap Z A) : first q = None ↔ q = ∅.
Proof. unfold first. by rewrite head_None, map_to_list_empty_iff. Qed.

Lemma lookup_filter_by table k x :
  filter_by P table !! k = Some x ↔ table !! k = Some x ∧ P x.
Proof. unfold filter_by. by rewrite map_lookup_filter_Some. Qed.

Lemma first_filter_by_None table :
  first (filter_by P table) = None ↔ ∀ k x, table !! k = Some x → ¬ P x.
Proof.
  rewrite first_None, map_empty. split.
  - intros Hnone k x Hk HP. specialize (Hnone k).
    assert (filter_by P table !! k = Some x) by by apply lookup_filter_by.
    congruence.
  - intros Hall k. apply eq_None_not_Some. intros [x Hx].
    apply lookup_filter_by in Hx as [Hk HP]. by eapply Hall.
Qed.

Lemma first_filter_by_Some table k x :
  table !! k = Some x → P x → is_Some (first (filter_by P table)).
Proof.
  intros Hk HP. apply not_eq_None_Some. rewrite first_filter_by_None.
  intros Hall. by eapply Hall.
Qed.

Lemma count_nonneg (q : gmap Z A) : 0 ≤ count q.
Proof. unfold count. lia. Qed.

Lemma count_pos_iff table :
  count (filter_by P table) > 0 ↔ ∃ k x, table !! k = Some x ∧ P x.
Proof.
  unfold count. split.
  - intros Hpos.
    assert (size (filter_by P table) ≠ 0%nat) as Hne by lia.
    apply map_size_ne_0_lookup in Hne as [k [x Hx]].
    apply lookup_filter_by in Hx. eauto.
  - intros (k & x & Hk & HP).
    assert (size (filter_by P table) ≠ 0%nat); [|lia].
    apply map_size_ne_0_lookup. exists k, x. by apply lookup_filter_by.
Qed.

(** Two tables with the same selected keys have the same count. *)
Lemma count_filter_by_keys table1 table2 :
  (∀ k, is_Some (filter_by P table1 !! k) ↔ is_Some (filter_by P table2 !! k)) →
  count (filter_by P table1) = count (filter_by P table2).
Proof.
  intros Hkeys. unfold count. f_equal.
  rewrite <- !(size_dom (D := gset Z)). f_equal.
  apply set_eq. intros k. by rewrite !elem_of_dom.
Qed.

Lemma count_filter_by_insert_fresh table k x :
  table !! k = None →
  count (filter_by P (<[k:=x]> table))
  = count (filter_by P table) + (if decide (P x) then 1 else 0).
Proof.
  intros Hk. unfold count, filter_by. rewrite map_filter_insert. simpl.
  destruct (decide (P x)).
  - rewrite map_size_insert_None; [lia|].
    apply map_lookup_filter_None. by left.
  - rewrite delete_id by done. lia.
Qed.

(** A selected row replaced by one that is not selected. *)
Lemma count_filter_by_close table k x y :
  table !! k = Some x → P x → ¬ P y →
  count (filter_by P (<[k:=y]> table)) = count (filter_by P table) - 1.
Proof.
  intros Hk HPx HPy. unfold count, filter_by.
  rewrite map_filter_insert_False by done. rewrite map_filter_delete.
  assert (filter (λ kr, P kr.2) table !! k = Some x) as Hin
    by (apply map_lookup_filter_Some; done).
  rewrite map_size_delete_Some by eauto.
  assert (size (filter (λ kr, P kr.2) table) ≠ 0%nat); [|lia].
  apply map_size_ne_0_lookup. eauto.
Qed.

(** A row that is not selected replaced by another such row, or inserted. *)
Lemma count_filter_by_insert_not table k y :
  (∀ x, table !! k = Some x → ¬ P x) → ¬ P y →
  count (filter_by P (<[k:=y]> table)) = count (filter_by P table).
Proof.
  intros Hk HPy. unfold count, filter_by.
  rewrite map_filter_insert_not'; done.
Qed.
End Queries.

(** The key of a new row is not in use. *)
Lemma next_id_above {A} (table : gmap Z A) k :
  is_Some (table !! k) → k < next_id table.
Proof.
  unfold next_id.
  cut (k ≤ map_fold (λ k _ acc, Z.max k acc) 0 table ∨ table !! k = None).
  { intros [?|Hnone] [x Hx]; [lia | congruence]. }
  revert k.
  apply (map_fold_weak_ind (λ acc (m : gmap Z A), ∀ k, k ≤ acc ∨ m !! k = None)).
  - intros k. right. apply lookup_empty.
  - intros i x m acc Hi IH k. destruct (decide (k = i)) as [->|Hne].
    + left. lia.
    + rewrite lookup_insert_ne by done. destruct (IH k); [left; lia | by right].
Qed.

Lemma next_id_fresh {A} (table : gmap Z A) : table !! next_id table = None.
Proof.
  apply eq_None_not_Some. intros Hsome%next_id_above. lia.
Qed.

(** ** Sessions *)

Lemma current_user_Some db uid u :
  users db !! uid = Some u → current_user db (Some uid) = Some (uid, u).
Proof. intros Hu. unfold current_user. simpl. by rewrite Hu. Qed.

Lemma current_user_inv db session uid u :
  current_user db session = Some (uid, u) →
  session = Some uid ∧ users db !! uid = Some u.
Proof.
  unfold current_user. destruct session as [i|]; simpl; [|done].
  destruct (users db !! i) eqn:Hi; simpl; [|done]. by intros [= <- <-].
Qed.

Lemma current_user_users db db' session :
  users db' = users db → current_user db' session = current_user db session.
Proof. unfold current_user. by intros ->. Qed.

Lemma librarian_required_inr db session uid u :
  librarian_required db session = inr (uid, u) ↔
  current_user db session = Some (uid, u) ∧ User.role u = "librarian".
Proof.
  unfold librarian_required.
  destruct (current_user db session) as [[i v]|].
  - destruct (decide (User.role v ≠ "librarian")) as [Hne|Heq].
    + split; [done|]. intros [[= -> ->] ?]. done.
    + split.
      * intros [= -> ->]. split; [done|]. by apply dec_stable.
      * by intros [[= -> ->] _].
  - split; [done|]. by intros [? _].
Qed.

(** ** Borrowing and returning *)

Lemma set_available_quantity_twice book n m :
  Book.set_available_quantity (Book.set_available_quantity book n) m
  = Book.set_available_quantity book m.
Proof. done. Qed.

Lemma set_available_quantity_same book :
  Book.set_available_quantity book (Book.available_quantity book) = book.
Proof. by destruct book. Qed.

(** What a borrow that goes through was given, and what it wrote. *)
Lemma borrow_book_Ok session now1 now2 book_id db db' :
  borrow_book session now1 now2 book_id db = (Ok, db') →
  ∃ uid cur book,
    current_user db session = Some (uid, cur)
    ∧ User.role cur = "student"
    ∧ books db !! book_id = Some book
    ∧ 1 ≤ Book.available_quantity book
    ∧ db' = mkDB (users db)
                 (<[book_id := Book.set_available_quantity book
                                 (Book.available_quantity book - 1)]> (books db))
                 (<[next_id (borrow_records db) :=
                      BorrowRecord.mk uid book_id now1 None
                                      (now2 + timedelta_days 14) "borrowed"]>
                    (borrow_records db)).
Proof.
  unfold borrow_book.
  destruct (current_user db session) as [[uid cur]|]; [|done].
  destruct (decide (User.role cur ≠ "student")) as [|Hrole]; [done|].
  destruct (books db !! book_id) as [book|];
    [|by unfold no_row; destruct (decide _)].
  destruct (decide (Book.available_quantity book < 1)); [done|].
  destruct (first _); [done|].
  intros [= <-]. exists uid, cur, book. repeat split; try done; try lia.
  by destruct (decide (User.role cur = "student")).
Qed.

(** X24, what a borrow writes: a student borrowing a book with a copy
    available and no open record for the pair gets exactly one new record,
    with [borrow_date] the first clock reading, [due_date] the second
    reading plus 14 days, status 'borrowed' and no return date, and the
    book's [available_quantity] goes down by exactly 1; nothing else in the
    store changes. *)
Theorem borrow_book_creates_record db uid cur book_id book now1 now2 :
  users db !! uid = Some cur →
  User.role cur = "student" →
  books db !! book_id = Some book →
  1 ≤ Book.available_quantity book →
  (∀ rid r, borrow_records db !! rid = Some r →
     BorrowRecord.user_id r = uid → BorrowRecord.book_id r = book_id →
     BorrowRecord.status r ≠ "borrowed" ∧ BorrowRecord.status r ≠ "overdue") →
  let created :=
    BorrowRecord.mk uid book_id now1 None (now2 + timedelta_days 14)
                    "borrowed" in
  let rid := next_id (borrow_records db) in
  let result := borrow_book (Some uid) now1 now2 book_id db in
  result.1 = Ok
  ∧ borrow_records db !! rid = None
  ∧ borrow_records result.2 = <[rid := created]> (borrow_records db)
  ∧ size (borrow_records result.2) = S (size (borrow_records db))
  ∧ (∃ book', books result.2 !! book_id = Some book'
       ∧ Book.available_quantity book' = Book.available_quantity book - 1
       ∧ Book.quantity book' = Book.quantity book)
  ∧ (∀ other, other ≠ book_id → books result.2 !! other = books db !! other)
  ∧ users result.2 = users db.
Proof.
  intros Hu Hrole Hbook Havail Hopen created rid result.
  assert (result = (Ok, mkDB (users db)
            (<[book_id := Book.set_available_quantity book
                            (Book.available_quantity book - 1)]> (books db))
            (<[rid := created]> (borrow_records db)))) as ->.
  { unfold result, borrow_book. rewrite (current_user_Some _ _ _ Hu).
    rewrite decide_False by (by intros ?).
    rewrite Hbook. rewrite decide_False by lia.
    destruct (first _) eqn:Hfirst; [|done].
    assert (is_Some (first (filter_by (λ r, BorrowRecord.user_id r = uid
              ∧ BorrowRecord.book_id r = book_id
              ∧ BorrowRecord.status r = "borrowed") (borrow_records db))))
      as Hsome by eauto.
    apply not_eq_None_Some in Hsome. exfalso. apply Hsome.
    apply first_filter_by_None. intros k r Hk (? & ? & ?).
    by destruct (Hopen k r). }
  simpl. pose proof (next_id_fresh (borrow_records db)) as Hfresh.
  split; [done|]. split; [done|]. split; [done|].
  split; [by apply map_size_insert_None|].
  split; [eexists; by rewrite lookup_insert_eq|].
  split; [|done]. intros other Hother. by rewrite lookup_insert_ne.
Qed.

Lemma borrow_book_creates_record_witness :
  (borrow_book (Some 2) day day 1 seeded).1 = Ok
  ∧ borrow_records (borrow_book (Some 2) day day 1 seeded).2 !! 1
    = Some (BorrowRecord.mk 2 1 day None (15 * day) "borrowed").
Proof.
  destruct (borrow_book_creates_record seeded 2
              (User.mk "john_doe" "john@student.com" "hash:student123"
                       "student" 0)
              1 (sample_book "Python Programming" "John Smith" "9781234567897"
                   "Technology"
                   "A comprehensive guide to Python programming for beginners and experts."
                   5 2023)
              day day)
    as (Hok & _ & Hrecords & _).
  - vm_compute; done.
  - vm_compute; done.
  - vm_compute; done.
  - vm_compute; done.
  - vm_compute; done.
  - split; [exact Hok|]. rewrite Hrecords. vm_compute. reflexivity.
Defined.

(** C5 at the failing input: student 2 borrows book 1 and the clock moves on
    by a microsecond between the two readings of [datetime.utcnow()].  The
    borrow goes through, the copy is taken, and the [due_date] of the new
    record is not its [borrow_date] plus 14 days, which is what the column's
    comment in models.py says it is.  With equal readings it is. *)
Theorem borrow_book_due_date_drifts :
  let result := borrow_book (Some 2) day (day + 1) 1 seeded in
  let created := borrow_records result.2 !! 1 in
  borrow_records seeded !! 1 = None
  ∧ result.1 = Ok
  ∧ Book.available_quantity <$> books result.2 !! 1 = Some 4
  ∧ BorrowRecord.status <$> created = Some "borrowed"
  ∧ BorrowRecord.borrow_date <$> created = Some day
  ∧ BorrowRecord.due_date <$> created = Some (day + timedelta_days 14 + 1)
  ∧ BorrowRecord.due_date <$> created
    ≠ (λ r, BorrowRecord.borrow_date r + timedelta_days 14) <$> created
  ∧ BorrowRecord.due_date
      <$> borrow_records (borrow_book (Some 2) day day 1 seeded).2 !! 1
    = Some (day + timedelta_days 14).
Proof.
  repeat split; try (vm_compute; reflexivity). vm_compute. congruence.
Qed.

(** C2, as the code has it: for a student and a book of the catalog, an
    existing record of the pair with status 'borrowed' makes [borrow_book]
    answer DuplicateBorrow when a copy is available and Unavailable when none
    is; in both cases the store is left as it was, so no record is created
    and [available_quantity] is unchanged. *)
Theorem borrow_book_duplicate db uid cur book_id book rid r now1 now2 :
  users db !! uid = Some cur →
  User.role cur = "student" →
  books db !! book_id = Some book →
  borrow_records db !! rid = Some r →
  BorrowRecord.user_id r = uid →
  BorrowRecord.book_id r = book_id →
  BorrowRecord.status r = "borrowed" →
  borrow_book (Some uid) now1 now2 book_id db
  = (if decide (Book.available_quantity book < 1) then Unavailable
     else DuplicateBorrow, db).
Proof.
  intros Hu Hrole Hbook Hr Huid Hbid Hstatus.
  unfold borrow_book. rewrite (current_user_Some _ _ _ Hu).
  rewrite decide_False by (by intros ?). rewrite Hbook.
  destruct (decide (Book.available_quantity book < 1)); [done|].
  destruct (first _) eqn:Hfirst; [done|].
  pose proof (proj1 (first_filter_by_None _ _) Hfirst rid r Hr) as Hnot.
  by destruct Hnot.
Qed.

Lemma borrow_book_duplicate_witness :
  borrow_book (Some 2) (2 * day) (2 * day) 1 three_out
  = (DuplicateBorrow, three_out).
Proof.
  apply (borrow_book_duplicate three_out 2
           (User.mk "john_doe" "john@student.com" "hash:student123"
                    "student" 0)
           1 (Book.set_available_quantity
                (sample_book "Python Programming" "John Smith" "9781234567897"
                   "Technology"
                   "A comprehensive guide to Python programming for beginners and experts."
                   5 2023) 2)
           1 (BorrowRecord.mk 2 1 day None (15 * day) "borrowed")
           (2 * day) (2 * day)); vm_compute; reflexivity.
Defined.

(** C2 as stated fails where the check of availability comes first: student
    2 holds a copy of book 3 under a record with status 'borrowed', no copy
    is left, and the second request is answered Unavailable. *)
Lemma borrow_book_duplicate_counterexample :
  borrow_records none_left !! 1
  = Some (BorrowRecord.mk 2 3 day None (15 * day) "borrowed")
  ∧ ¬ ((borrow_book (Some 2) (2 * day) (2 * day) 3 none_left).1
       = DuplicateBorrow).
Proof. split; [vm_compute; reflexivity | vm_compute; discriminate]. Qed.

(** The duplicate check reads only the status 'borrowed': once the dashboard
    has marked the record overdue, the same student borrows a second copy of
    the same book. *)
Lemma borrow_book_overdue_not_duplicate :
  borrow_records one_overdue !! 1
  = Some (BorrowRecord.mk 2 1 day None (15 * day) "overdue")
  ∧ (borrow_book (Some 2) (21 * day) (21 * day) 1 one_overdue).1 = Ok
  ∧ borrow_records (borrow_book (Some 2) (21 * day) (21 * day) 1 one_overdue).2
      !! 2
    = Some (BorrowRecord.mk 2 1 (21 * day) None (35 * day) "borrowed")
  ∧ Book.available_quantity
      <$> (books (borrow_book (Some 2) (21 * day) (21 * day) 1 one_overdue).2
             !! 1)
    = Some 3.
Proof. repeat split; vm_compute; reflexivity. Qed.

(** A request to return a record that is already returned. *)
Lemma return_book_returned db session now rid r :
  borrow_records db !! rid = Some r →
  BorrowRecord.status r = "returned" →
  (return_book session now rid db).2 = db
  ∧ (∀ uid cur, current_user db session = Some (uid, cur) →
       BorrowRecord.user_id r = uid ∨ User.role cur = "librarian" →
       return_book session now rid db = (AlreadyReturned, db)).
Proof.
  intros Hr Hstatus. unfold return_book. rewrite Hr. split.
  - destruct (current_user db session) as [[uid cur]|]; [|done].
    destruct (decide _); [done|]. by rewrite decide_True.
  - intros uid cur -> Hmay.
    rewrite decide_False by (intros [? ?]; by destruct Hmay).
    by rewrite decide_True.
Qed.

(** What a return that goes through was given, and what it wrote. *)
Lemma return_book_Ok session now rid db db' :
  return_book session now rid db = (Ok, db') →
  ∃ uid cur r book,
    current_user db session = Some (uid, cur)
    ∧ borrow_records db !! rid = Some r
    ∧ (BorrowRecord.user_id r = uid ∨ User.role cur = "librarian")
    ∧ BorrowRecord.status r ≠ "returned"
    ∧ books db !! BorrowRecord.book_id r = Some book
    ∧ db' = mkDB (users db)
                 (<[BorrowRecord.book_id r :=
                      Book.set_available_quantity book
                        (Book.available_quantity book + 1)]> (books db))
                 (<[rid := BorrowRecord.set_status
                             (BorrowRecord.set_return_date r now) "returned"]>
                    (borrow_records db)).
Proof.
  unfold return_book.
  destruct (current_user db session) as [[uid cur]|] eqn:Hcur; [|done].
  destruct (borrow_records db !! rid) as [r|] eqn:Hr;
    [|by unfold no_row; destruct (decide _)].
  destruct (decide _) as [|Hmay]; [done|].
  destruct (decide _) as [|Hopen]; [done|].
  destruct (books db !! BorrowRecord.book_id r) as [book|] eqn:Hbook; [|done].
  intros [= <-]. exists uid, cur, r, book. repeat split; try done.
  destruct (decide (BorrowRecord.user_id r = uid)); [by left|].
  right. apply dec_stable. intros ?. by apply Hmay.
Qed.

(** C6: [return_book] on a record whose status is 'returned' changes nothing
    in the store, whoever asks: the book's [available_quantity], the
    record's [return_date] and its status stay as they are.  For the owner
    of the record or a librarian the answer is AlreadyReturned; so the second
    of two requests by one session, after a first that went through, is
    answered AlreadyReturned and leaves the store of the first. *)
Theorem return_book_idempotent db session now rid :
  (∀ r, borrow_records db !! rid = Some r →
     BorrowRecord.status r = "returned" →
     (return_book session now rid db).2 = db
     ∧ (∀ uid cur, current_user db session = Some (uid, cur) →
          BorrowRecord.user_id r = uid ∨ User.role cur = "librarian" →
          return_book session now rid db = (AlreadyReturned, db)))
  ∧ (∀ db0 now0, return_book session now0 rid db0 = (Ok, db) →
       return_book session now rid db = (AlreadyReturned, db)).
Proof.
  split; [intros r; apply return_book_returned|].
  intros db0 now0 (uid & cur & r & book & Hcur & Hr & Hmay & _ & _ & ->)
    %return_book_Ok.
  eapply (return_book_returned _ session now rid).
  - simpl. apply lookup_insert_eq.
  - done.
  - by rewrite <- Hcur.
  - done.
Qed.

Lemma return_book_idempotent_witness :
  let db := (return_book (Some 2) (2 * day) 1 three_out).2 in
  borrow_records db !! 1
  = Some (BorrowRecord.mk 2 1 day (Some (2 * day)) (15 * day) "returned")
  ∧ return_book (Some 2) (2 * day) 1 three_out = (Ok, db)
  ∧ (return_book (Some 2) (3 * day) 1 db).2 = db
  ∧ return_book (Some 2) (3 * day) 1 db = (AlreadyReturned, db).
Proof.
  intros db.
  destruct (return_book_idempotent db (Some 2) (3 * day) 1) as [Hfirst Hsecond].
  assert (borrow_records db !! 1
          = Some (BorrowRecord.mk 2 1 day (Some (2 * day)) (15 * day)
                                  "returned")) as Hr
    by (vm_compute; reflexivity).
  assert (return_book (Some 2) (2 * day) 1 three_out = (Ok, db)) as Hok
    by (vm_compute; reflexivity).
  split; [exact Hr|]. split; [exact Hok|]. split.
  - exact (proj1 (Hfirst _ Hr eq_refl)).
  - exact (Hsecond three_out (2 * day) Hok).
Defined.

(** C7: when [borrow_book] goes through, [return_book] by the same session
    on the record it created goes through too and leaves the table [books]
    as it was before the borrow: the book's [available_quantity] is back at
    its value, and so is every other column. *)
Theorem borrow_then_return_restores db db1 session now1 now2 now3 book_id :
  borrow_book session now1 now2 book_id db = (Ok, db1) →
  ∃ db2,
    return_book session now3 (next_id (borrow_records db)) db1 = (Ok, db2)
    ∧ books db2 = books db
    ∧ Book.available_quantity <$> books db2 !! book_id
      = Book.available_quantity <$> books db !! book_id.
Proof.
  intros (uid & cur & book & Hcur & Hrole & Hbook & Havail & ->)
    %borrow_book_Ok.
  unfold return_book.
  rewrite (current_user_users db) by done. rewrite Hcur. simpl.
  rewrite lookup_insert_eq. simpl.
  rewrite decide_False by (by intros [? _]).
  rewrite lookup_insert_eq. eexists. split; [done|]. simpl.
  rewrite insert_insert_eq, insert_id; [done|].
  rewrite Hbook. f_equal. destruct book. unfold Book.set_available_quantity.
  simpl. f_equal. lia.
Qed.

Lemma borrow_then_return_restores_witness :
  let db1 := (borrow_book (Some 3) day day 5 three_out).2 in
  Book.available_quantity <$> books three_out !! 5 = Some 5
  ∧ Book.available_quantity <$> books db1 !! 5 = Some 4
  ∧ ∃ db2, return_book (Some 3) (2 * day) 4 db1 = (Ok, db2)
           ∧ books db2 = books three_out
           ∧ Book.available_quantity <$> books db2 !! 5 = Some 5.
Proof.
  intros db1.
  split; [vm_compute; reflexivity|]. split; [vm_compute; reflexivity|].
  destruct (borrow_then_return_restores three_out db1 (Some 3) day day
              (2 * day) 5) as (db2 & Hret & Hbooks & Havail).
  - vm_compute; reflexivity.
  - exists db2. split; [exact Hret|]. split; [exact Hbooks|].
    rewrite Havail. vm_compute; reflexivity.
Defined.

(** ** The catalog views *)

Lemma librarian_required_inl db session denied :
  librarian_required db session = inl denied →
  denied = LoginRequired ∨ denied = RoleDenied.
Proof.
  unfold librarian_required.
  destruct (current_user db session) as [[uid cur]|]; [|naive_solver].
  destruct (decide _); naive_solver.
Qed.

Lemma BookForm_validate_quantity form :
  BookForm.validate form = true →
  ∃ q, BookForm.quantity form = Some q ∧ 1 ≤ q ≤ 1000.
Proof.
  unfold BookForm.validate. rewrite !andb_true_iff.
  intros [[_ [_ Hrange]] _]. unfold NumberRange in Hrange.
  destruct (BookForm.quantity form) as [q|]; [|done].
  apply bool_decide_eq_true in Hrange. eauto.
Qed.

(** What an edit that goes through was given, and what it wrote. *)
Lemma edit_book_Ok session book_id form db db' :
  edit_book session book_id form db = (Ok, db') →
  ∃ book q,
    books db !! book_id = Some book
    ∧ BookForm.quantity form = Some q ∧ 1 ≤ q ≤ 1000
    ∧ db' = mkDB (users db)
                 (<[book_id :=
                      Book.mk (BookForm.title form) (BookForm.author form)
                        (BookForm.isbn form) (BookForm.category form)
                        (BookForm.description form) (Book.cover_image book)
                        q (q - (Book.quantity book
                                - Book.available_quantity book))
                        (BookForm.publication_year form)]> (books db))
                 (borrow_records db).
Proof.
  unfold edit_book.
  destruct (librarian_required db session) as [denied|] eqn:Hgate;
    [by destruct (librarian_required_inl _ _ _ Hgate) as [-> | ->]|].
  destruct (books db !! book_id) as [book|];
    [|by unfold no_row; destruct (decide _)].
  destruct (BookForm.validate form) eqn:Hvalid; [|done].
  destruct (first _); [done|].
  apply BookForm_validate_quantity in Hvalid as (q & Hq & Hrange).
  rewrite Hq. simpl. intros [= <-]. by exists book, q.
Qed.

(** C4: an edit that goes through gives the book the total [new_total] of
    the form and the available count [new_total - (old_total -
    old_available)]; the copies out, total less available, are as many as
    before, and a total below that number gives a negative available
    count. *)
Theorem edit_book_keeps_borrowed_count session book_id form db db' book :
  edit_book session book_id form db = (Ok, db') →
  books db !! book_id = Some book →
  ∃ new_total book',
    BookForm.quantity form = Some new_total
    ∧ books db' !! book_id = Some book'
    ∧ Book.quantity book' = new_total
    ∧ Book.available_quantity book'
      = new_total - (Book.quantity book - Book.available_quantity book)
    ∧ Book.quantity book' - Book.available_quantity book'
      = Book.quantity book - Book.available_quantity book
    ∧ (new_total < Book.quantity book - Book.available_quantity book →
       Book.available_quantity book' < 0).
Proof.
  intros (book0 & q & Hbook0 & Hq & Hrange & ->)%edit_book_Ok Hbook.
  assert (book0 = book) as -> by congruence.
  eexists q, _. split; [done|]. split; [apply lookup_insert_eq|].
  simpl. repeat split; lia.
Qed.

Lemma edit_book_keeps_borrowed_count_witness :
  let db' := (edit_book (Some 1) 1 (python_programming 2) three_out).2 in
  (Book.quantity <$> books three_out !! 1 = Some 5
   ∧ Book.available_quantity <$> books three_out !! 1 = Some 2)
  ∧ ∃ book', books db' !! 1 = Some book'
             ∧ Book.quantity book' = 2
             ∧ Book.available_quantity book' = 2 - (5 - 2)
             ∧ Book.available_quantity book' < 0.
Proof.
  intros db'. split; [split; vm_compute; reflexivity|].
  destruct (edit_book_keeps_borrowed_count (Some 1) 1 (python_programming 2)
              three_out db'
              (Book.set_available_quantity
                 (sample_book "Python Programming" "John Smith"
                    "9781234567897" "Technology"
                    "A comprehensive guide to Python programming for beginners and experts."
                    5 2023) 2))
    as (q & book' & Hq & Hbook' & Htotal & Havail & _ & Hneg).
  - vm_compute; reflexivity.
  - vm_compute; reflexivity.
  - injection Hq as <-. exists book'. split; [exact Hbook'|].
    split; [exact Htotal|]. split; [exact Havail|].
    apply Hneg. simpl. lia.
Defined.

(** What a deletion that is let through does: it goes through exactly when
    no record of the book has the status 'borrowed'. *)
Lemma delete_book_librarian db session uid cur book_id book :
  librarian_required db session = inr (uid, cur) →
  books db !! book_id = Some book →
  delete_book session book_id db
  = if decide (∃ rid r, borrow_records db !! rid = Some r
                        ∧ BorrowRecord.book_id r = book_id
                        ∧ BorrowRecord.status r = "borrowed")
    then (Conflict, db)
    else (Ok, mkDB (users db) (delete book_id (books db))
                   (filter_by (λ r, BorrowRecord.book_id r ≠ book_id)
                              (borrow_records db))).
Proof.
  intros Hgate Hbook. unfold delete_book. rewrite Hgate, Hbook.
  destruct (decide (count _ > 0)) as [Hpos|Hzero];
    destruct (decide (∃ rid r, _)) as [Hex|Hnone]; try done.
  - apply count_pos_iff in Hpos. by destruct Hnone.
  - destruct Hzero. by apply count_pos_iff.
Qed.

(** C3 at the failing input: the only record of book 1 has the status
    'overdue' (the copy is with student 2), and [delete_book] by the
    librarian goes through: the book and its record are gone.  With the
    status 'borrowed' the same request is answered Conflict. *)
Theorem delete_book_overdue_goes_through :
  borrow_records one_overdue !! 1
  = Some (BorrowRecord.mk 2 1 day None (15 * day) "overdue")
  ∧ (delete_book (Some 1) 1 one_overdue).1 = Ok
  ∧ books (delete_book (Some 1) 1 one_overdue).2 !! 1 = None
  ∧ borrow_records (delete_book (Some 1) 1 one_overdue).2 = ∅
  ∧ delete_book (Some 1) 1 one_out = (Conflict, one_out).
Proof. repeat split; vm_compute; reflexivity. Qed.

(** ** The sweep of overdue records *)

Lemma refresh_overdue_lookup (sel : BorrowRecord.t → Prop)
    `{!∀ r, Decision (sel r)} clock (table : gmap Z BorrowRecord.t) rid :
  refresh_overdue sel clock table !! rid
  = (λ r, if decide (sel r) then
            if BorrowRecord.is_overdue (clock rid) r
            then BorrowRecord.set_status r "overdue" else r
          else r) <$> table !! rid.
Proof.
  unfold refresh_overdue. rewrite map_lookup_imap.
  by destruct (table !! rid).
Qed.

(** A record is marked when its status is 'borrowed' and its due date is
    before the reading of the clock. *)
Lemma refresh_overdue_borrowed clock (table : gmap Z BorrowRecord.t) rid :
  refresh_overdue (λ r, BorrowRecord.status r = "borrowed") clock table !! rid
  = (λ r, if decide (BorrowRecord.status r = "borrowed"
                     ∧ BorrowRecord.due_date r < clock rid)
          then BorrowRecord.set_status r "overdue" else r) <$> table !! rid.
Proof.
  rewrite refresh_overdue_lookup. destruct (table !! rid) as [r|]; [|done].
  simpl. f_equal. unfold BorrowRecord.is_overdue.
  destruct (decide (BorrowRecord.status r = "borrowed")) as [Hb|Hb].
  - rewrite decide_False by (by rewrite Hb).
    destruct (decide (_ ∧ _)) as [[_ Hdue]|Hnot].
    + rewrite bool_decide_eq_true_2; [done | lia].
    + rewrite bool_decide_eq_false_2; [done | intros ?; apply Hnot; split; [done | lia]].
  - rewrite decide_False; [done | by intros [? _]].
Qed.

(** A record that is not 'borrowed' is left alone by every sweep. *)
Lemma refresh_overdue_not_borrowed (sel : BorrowRecord.t → Prop)
    `{!∀ r, Decision (sel r)} clock (table : gmap Z BorrowRecord.t) rid r :
  (∀ r, sel r → BorrowRecord.status r = "borrowed") →
  table !! rid = Some r →
  BorrowRecord.status r ≠ "borrowed" →
  refresh_overdue sel clock table !! rid = Some r.
Proof.
  intros Hsel Hr Hstatus. rewrite refresh_overdue_lookup, Hr. simpl.
  rewrite decide_False; [done | by intros ?%Hsel].
Qed.

Lemma refresh_overdue_idempotent clock (table : gmap Z BorrowRecord.t) :
  let sweep := refresh_overdue (λ r, BorrowRecord.status r = "borrowed") clock in
  sweep (sweep table) = sweep table.
Proof.
  intros sweep. apply map_eq. intros rid. unfold sweep.
  rewrite !refresh_overdue_borrowed.
  destruct (table !! rid) as [r|]; [|done]. simpl. f_equal.
  destruct (decide (BorrowRecord.status r = "borrowed"
                    ∧ BorrowRecord.due_date r < clock rid)) as [Hmark|Hnot].
  - by rewrite decide_False by (by intros [? _]).
  - by rewrite decide_False.
Qed.

(** C8: the sweep of [librarian_dashboard] gives the status 'overdue' to
    exactly the records whose status is 'borrowed' and whose due date is
    before the clock reading (one instant [now] is the clock [λ _, now]),
    and leaves every other record and the other tables as they are; a
    second run with the same readings changes nothing; and no run of a
    dashboard, by any session at any time, changes a record whose status is
    'overdue'. *)
Theorem librarian_dashboard_refresh db session clock uid cur :
  librarian_required db session = inr (uid, cur) →
  let db' := (librarian_dashboard session clock db).2 in
  (∀ rid, borrow_records db' !! rid
          = (λ r, if decide (BorrowRecord.status r = "borrowed"
                             ∧ BorrowRecord.due_date r < clock rid)
                  then BorrowRecord.set_status r "overdue" else r)
            <$> borrow_records db !! rid)
  ∧ users db' = users db ∧ books db' = books db
  ∧ (librarian_dashboard session clock db').2 = db'
  ∧ (∀ session' clock' rid r,
       borrow_records db !! rid = Some r →
       BorrowRecord.status r = "overdue" →
       borrow_records (librarian_dashboard session' clock' db).2 !! rid = Some r
       ∧ borrow_records (student_dashboard session' clock' db).2 !! rid = Some r).
Proof.
  intros Hgate db'.
  assert (db' = mkDB (users db) (books db)
                  (refresh_overdue (λ r, BorrowRecord.status r = "borrowed")
                                   clock (borrow_records db))) as ->
    by (unfold db', librarian_dashboard; by rewrite Hgate).
  simpl. split; [apply refresh_overdue_borrowed|].
  split; [done|]. split; [done|]. split.
  - unfold librarian_dashboard.
    assert (librarian_required
              (mkDB (users db) (books db)
                 (refresh_overdue (λ r, BorrowRecord.status r = "borrowed")
                    clock (borrow_records db))) session
            = librarian_required db session) as -> by done.
    rewrite Hgate. simpl. f_equal. apply refresh_overdue_idempotent.
  - intros session' clock' rid r Hr Hstatus. split.
    + unfold librarian_dashboard.
      destruct (librarian_required db session'); [done|]. simpl.
      apply refresh_overdue_not_borrowed; [done | done | by rewrite Hstatus].
    + unfold student_dashboard.
      destruct (current_user db session') as [[uid' cur']|]; [|done].
      destruct (decide _); [done|]. simpl.
      apply refresh_overdue_not_borrowed;
        [by intros ? [_ ?] | done | by rewrite Hstatus].
Qed.

Lemma librarian_dashboard_refresh_witness :
  (* on day 20 the record due on day 15 is marked, on day 10 it is not *)
  borrow_records one_out !! 1
  = Some (BorrowRecord.mk 2 1 day None (15 * day) "borrowed")
  ∧ borrow_records (librarian_dashboard (Some 1) (λ _, 20 * day) one_out).2 !! 1
    = Some (BorrowRecord.mk 2 1 day None (15 * day) "overdue")
  ∧ borrow_records (librarian_dashboard (Some 1) (λ _, 10 * day) one_out).2 !! 1
    = Some (BorrowRecord.mk 2 1 day None (15 * day) "borrowed")
  ∧ (librarian_dashboard (Some 1) (λ _, 20 * day)
       (librarian_dashboard (Some 1) (λ _, 20 * day) one_out).2).2
    = (librarian_dashboard (Some 1) (λ _, 20 * day) one_out).2.
Proof.
  assert (librarian_required one_out (Some 1)
          = inr (1, User.mk "admin" "admin@library.com" "hash:admin123"
                            "librarian" 0)) as Hgate
    by (vm_compute; reflexivity).
  assert (borrow_records one_out !! 1
          = Some (BorrowRecord.mk 2 1 day None (15 * day) "borrowed")) as Hr
    by (vm_compute; reflexivity).
  destruct (librarian_dashboard_refresh one_out (Some 1) (λ _, 20 * day) _ _
              Hgate) as (Hlate & _ & _ & Hagain & _).
  destruct (librarian_dashboard_refresh one_out (Some 1) (λ _, 10 * day) _ _
              Hgate) as (Hearly & _).
  split; [exact Hr|]. split; [|split; [|exact Hagain]].
  - rewrite Hlate, Hr. vm_compute; reflexivity.
  - rewrite Hearly, Hr. vm_compute; reflexivity.
Defined.

(** ** Registration *)

(** The inline validator rejects a name exactly when a row of [users] has
    it, character for character. *)
Lemma validate_username_None db name :
  RegistrationForm.validate_username db name = None ↔
  ∀ uid u, users db !! uid = Some u → User.username u ≠ name.
Proof.
  unfold RegistrationForm.validate_username.
  destruct (first _) eqn:Hfirst.
  - split; [done|]. intros Hall. exfalso.
    assert (first (filter_by (λ u, User.username u = name) (users db)) = None)
      as Hnone by exact (proj2 (first_filter_by_None _ _) Hall).
    congruence.
  - split; [|done]. intros _.
    exact (proj1 (first_filter_by_None _ _) Hfirst).
Qed.

Lemma validate_username_taken db name uid u :
  users db !! uid = Some u → User.username u = name →
  RegistrationForm.validate_username db name
  = Some "Username already exists. Please choose a different one.".
Proof.
  intros Hu Hname. unfold RegistrationForm.validate_username.
  destruct (first _) eqn:Hfirst; [done|].
  pose proof (proj1 (first_filter_by_None _ _) Hfirst uid u Hu). done.
Qed.

Section Registration.
  Context `{Framework}.

(** C9: when the username of the form is, character for character, that of
    a row of [users], [validate_username] raises its ValidationError, the
    form does not validate, [register] leaves the store as it is for every
    session, and the visitor who is not logged in is answered
    ValidationError. *)
Theorem register_duplicate_username db session now form uid u :
  users db !! uid = Some u →
  User.username u = RegistrationForm.username form →
  RegistrationForm.validate_username db (RegistrationForm.username form)
  = Some "Username already exists. Please choose a different one."
  ∧ RegistrationForm.validate db form = false
  ∧ (register session now form db).2 = db
  ∧ (current_user db session = None →
     register session now form db = (ValidationError, db)).
Proof.
  intros Hu Hname.
  pose proof (validate_username_taken _ _ _ _ Hu Hname) as Htaken.
  assert (RegistrationForm.validate db form = false) as Hinvalid.
  { unfold RegistrationForm.validate. rewrite Htaken.
    rewrite bool_decide_eq_false_2 by done.
    by rewrite !andb_false_r. }
  split; [done|]. split; [done|]. unfold register. rewrite Hinvalid.
  split; [by destruct (current_user db session) | by intros ->].
Qed.

(** A form that validates is written to [users] under a new key. *)
Lemma register_Ok db now form :
  RegistrationForm.validate db form = true →
  register None now form db
  = (Ok, mkDB (<[next_id (users db) :=
                   User.mk (RegistrationForm.username form)
                           (RegistrationForm.email form)
                           (generate_password_hash
                              (RegistrationForm.password form))
                           (RegistrationForm.role form) now]> (users db))
              (books db) (borrow_records db)).
Proof. intros Hvalid. unfold register. simpl. by rewrite Hvalid. Qed.

(** The role of the form is checked against the two choices and nothing
    else. *)
Lemma validate_any_role db form :
  RegistrationForm.validate db (RegistrationForm.set_role form "librarian")
  = RegistrationForm.validate db (RegistrationForm.set_role form "student").
Proof. done. Qed.

(** C10: a visitor who is not logged in and sends a registration form that
    validates with the role 'librarian' gets an account with that role; the
    session of that account passes [librarian_required], the gate of every
    catalog view, and adds a book.  Whether a form validates does not depend
    on which of the two roles it asks for. *)
Theorem register_as_librarian db now form :
  RegistrationForm.validate db form = true →
  RegistrationForm.role form = "librarian" →
  let uid := next_id (users db) in
  let db' := (register None now form db).2 in
  (register None now form db).1 = Ok
  ∧ users db !! uid = None
  ∧ (∃ account,
       users db' !! uid = Some account
       ∧ User.username account = RegistrationForm.username form
       ∧ User.role account = "librarian"
       ∧ librarian_required db' (Some uid) = inr (uid, account)
       ∧ (∀ book, BookForm.validate book = true →
            (∀ k b, books db !! k = Some b → Book.isbn b ≠ BookForm.isbn book) →
            (add_book (Some uid) book db').1 = Ok))
  ∧ (∀ other,
       RegistrationForm.validate db (RegistrationForm.set_role other "librarian")
       = RegistrationForm.validate db (RegistrationForm.set_role other "student")).
Proof.
  intros Hvalid Hrole uid db'. unfold db'. rewrite (register_Ok _ _ _ Hvalid).
  simpl. split; [done|]. split; [apply next_id_fresh|].
  split; [|apply validate_any_role].
  eexists. split; [apply lookup_insert_eq|]. simpl.
  split; [done|]. split; [done|].
  assert (librarian_required
            (mkDB (<[next_id (users db) :=
                       User.mk (RegistrationForm.username form)
                         (RegistrationForm.email form)
                         (generate_password_hash
                            (RegistrationForm.password form))
                         (RegistrationForm.role form) now]> (users db))
                  (books db) (borrow_records db)) (Some uid)
          = inr (uid, User.mk (RegistrationForm.username form)
                        (RegistrationForm.email form)
                        (generate_password_hash
                           (RegistrationForm.password form))
                        (RegistrationForm.role form) now)) as Hgate.
  { apply librarian_required_inr. split; [|done].
    apply current_user_Some. simpl. apply lookup_insert_eq. }
  split; [done|]. intros book Hbook Hisbn. unfold add_book.
  rewrite Hgate, Hbook. simpl.
  destruct (first _) eqn:Hfirst; [|done].
  assert (first (filter_by (λ b, Book.isbn b = BookForm.isbn book) (books db))
          = None) as Hnone by exact (proj2 (first_filter_by_None _ _) Hisbn).
  congruence.
Qed.

End Registration.

Lemma register_duplicate_username_witness :
  (* 'admin' is taken, 'Admin' is not *)
  let form name :=
    RegistrationForm.mk name "eve@example.com" "password1" "password1"
                        "student" in
  register (H := stub_framework) None day (form "admin") seeded
  = (ValidationError, seeded)
  ∧ (register (H := stub_framework) None day (form "Admin") seeded).1 = Ok.
Proof.
  intros form. split; [|vm_compute; reflexivity].
  apply (register_duplicate_username (H := stub_framework) seeded None day
           (form "admin") 1
           (User.mk "admin" "admin@library.com" "hash:admin123" "librarian" 0)).
  - vm_compute; reflexivity.
  - reflexivity.
  - reflexivity.
Defined.

Lemma register_as_librarian_witness :
  let db' := (register (H := stub_framework) None day new_librarian seeded).2 in
  RegistrationForm.validate (H := stub_framework) seeded new_librarian = true
  ∧ (register (H := stub_framework) None day new_librarian seeded).1 = Ok
  ∧ User.role <$> users db' !! 5 = Some "librarian"
  ∧ (add_book (Some 5) new_book db').1 = Ok.
Proof.
  intros db'.
  assert (RegistrationForm.validate (H := stub_framework) seeded new_librarian
          = true) as Hvalid by (vm_compute; reflexivity).
  destruct (register_as_librarian (H := stub_framework) seeded day
              new_librarian Hvalid eq_refl)
    as (Hok & _ & (account & Haccount & _ & Hrole & _ & Hadd) & _).
  split; [exact Hvalid|]. split; [exact Hok|]. split.
  - replace 5 with (next_id (users seeded)) by (vm_compute; reflexivity).
    unfold db'. rewrite Haccount. simpl. by rewrite Hrole.
  - replace 5 with (next_id (users seeded)) by (vm_compute; reflexivity).
    apply Hadd; [vm_compute; reflexivity|].
    intros k b Hb Hisbn.
    assert (¬ map_Exists (λ _ b, Book.isbn b = BookForm.isbn new_book)
                         (books seeded)) as Hfree
      by (apply (bool_decide_eq_false_1 _); vm_compute; reflexivity).
    apply Hfree. by exists k, b.
Defined.

(** ** The ledger and the copy counts *)

(** A request that is turned away leaves the store as it is. *)
Lemma borrow_book_unchanged session now1 now2 book_id db :
  (borrow_book session now1 now2 book_id db).1 ≠ Ok →
  (borrow_book session now1 now2 book_id db).2 = db.
Proof. unfold borrow_book. repeat (case_match; simpl; try done). Qed.

Lemma return_book_unchanged session now rid db :
  (return_book session now rid db).1 ≠ Ok →
  (return_book session now rid db).2 = db.
Proof. unfold return_book. repeat (case_match; simpl; try done). Qed.

Lemma add_book_unchanged session form db :
  (add_book session form db).1 ≠ Ok → (add_book session form db).2 = db.
Proof. unfold add_book. repeat (case_match; simpl; try done). Qed.

Lemma edit_book_unchanged session book_id form db :
  (edit_book session book_id form db).1 ≠ Ok →
  (edit_book session book_id form db).2 = db.
Proof. unfold edit_book. repeat (case_match; simpl; try done). Qed.

Lemma delete_book_unchanged session book_id db :
  (delete_book session book_id db).1 ≠ Ok →
  (delete_book session book_id db).2 = db.
Proof. unfold delete_book. repeat (case_match; simpl; try done). Qed.

Lemma add_book_Ok session form db db' :
  add_book session form db = (Ok, db') →
  ∃ q, BookForm.quantity form = Some q ∧ 1 ≤ q ≤ 1000
       ∧ db' = mkDB (users db)
                 (<[next_id (books db) :=
                      Book.mk (BookForm.title form) (BookForm.author form)
                        (BookForm.isbn form) (BookForm.category form)
                        (BookForm.description form) "default_book.jpg" q q
                        (BookForm.publication_year form)]> (books db))
                 (borrow_records db).
Proof.
  unfold add_book.
  destruct (librarian_required db session) as [denied|] eqn:Hgate;
    [by destruct (librarian_required_inl _ _ _ Hgate) as [-> | ->]|].
  destruct (BookForm.validate form) eqn:Hvalid; [|done].
  destruct (first _); [done|].
  apply BookForm_validate_quantity in Hvalid as (q & Hq & Hrange).
  rewrite Hq. simpl. intros [= <-]. by exists q.
Qed.

Lemma delete_book_Ok session book_id db db' :
  delete_book session book_id db = (Ok, db') →
  db' = mkDB (users db) (delete book_id (books db))
             (filter_by (λ r, BorrowRecord.book_id r ≠ book_id)
                        (borrow_records db)).
Proof.
  unfold delete_book.
  destruct (librarian_required db session) as [denied|] eqn:Hgate;
    [by destruct (librarian_required_inl _ _ _ Hgate) as [-> | ->]|].
  destruct (books db !! book_id);
    [|by unfold no_row; destruct (decide _)].
  destruct (decide _); [done|]. by intros [= <-].
Qed.

(** The copies out do not depend on the other tables. *)
Lemma borrowed_count_records book_id db db' :
  borrow_records db' = borrow_records db →
  borrowed_count book_id db' = borrowed_count book_id db.
Proof. unfold borrowed_count. by intros ->. Qed.

Lemma borrowed_count_nonneg book_id db : 0 ≤ borrowed_count book_id db.
Proof. apply count_nonneg. Qed.

(** No open record, no copy out. *)
Lemma borrowed_count_zero book_id db :
  (∀ rid r, borrow_records db !! rid = Some r →
     BorrowRecord.book_id r ≠ book_id) →
  borrowed_count book_id db = 0.
Proof.
  intros Hnone. pose proof (borrowed_count_nonneg book_id db) as Hge.
  destruct (decide (borrowed_count book_id db > 0)) as [Hpos|]; [|lia].
  apply count_pos_iff in Hpos as (rid & r & Hr & Hbook & _).
  by destruct (Hnone rid r).
Qed.

Lemma ledger_ok_empty : ledger_ok empty_db.
Proof. split; intros k x Hk; simpl in Hk; by rewrite lookup_empty in Hk. Qed.

Lemma ledger_ok_users db table :
  ledger_ok db → ledger_ok (mkDB table (books db) (borrow_records db)).
Proof. by intros [Hrefs Hcounts]. Qed.

(** The effect of [borrow_book]. *)
Lemma ledger_ok_borrow db table book_id book r :
  ledger_ok db →
  books db !! book_id = Some book →
  BorrowRecord.book_id r = book_id →
  BorrowRecord.status r = "borrowed" →
  ledger_ok (mkDB table
               (<[book_id := Book.set_available_quantity book
                               (Book.available_quantity book - 1)]> (books db))
               (<[next_id (borrow_records db) := r]> (borrow_records db))).
Proof.
  intros [Hrefs Hcounts] Hbook Hrbook Hstatus.
  pose proof (next_id_fresh (borrow_records db)) as Hfresh.
  split; simpl.
  - intros rid r' [[_ <-]|[_ Hold]]%lookup_insert_Some.
    + rewrite Hrbook, lookup_insert_eq. eauto.
    + apply lookup_insert_is_Some'. right. by eapply Hrefs.
  - intros bid b Hb. unfold borrowed_count, open_records. simpl.
    rewrite count_filter_by_insert_fresh by done.
    apply lookup_insert_Some in Hb as [[<- <-]|[Hne Hb]].
    + rewrite decide_True by (by rewrite Hstatus).
      specialize (Hcounts _ _ Hbook). unfold borrowed_count, open_records in Hcounts.
      simpl. lia.
    + rewrite decide_False by (intros [? _]; congruence).
      specialize (Hcounts _ _ Hb). unfold borrowed_count, open_records in Hcounts.
      lia.
Qed.

(** The effect of [return_book]. *)
Lemma ledger_ok_return db table rid r r' book :
  ledger_ok db →
  borrow_records db !! rid = Some r →
  BorrowRecord.status r ≠ "returned" →
  books db !! BorrowRecord.book_id r = Some book →
  BorrowRecord.book_id r' = BorrowRecord.book_id r →
  BorrowRecord.status r' = "returned" →
  ledger_ok (mkDB table
               (<[BorrowRecord.book_id r :=
                    Book.set_available_quantity book
                      (Book.available_quantity book + 1)]> (books db))
               (<[rid := r']> (borrow_records db))).
Proof.
  intros [Hrefs Hcounts] Hr Hopen Hbook Hsame Hclosed.
  split; simpl.
  - intros rid' r0 [[_ <-]|[_ Hold]]%lookup_insert_Some.
    + rewrite Hsame, lookup_insert_eq. eauto.
    + apply lookup_insert_is_Some'. right. by eapply Hrefs.
  - intros bid b Hb. unfold borrowed_count, open_records. simpl.
    apply lookup_insert_Some in Hb as [[<- <-]|[Hne Hb]].
    + rewrite (count_filter_by_close _ _ rid r r') by (done || (intros [_ ?]; done)).
      specialize (Hcounts _ _ Hbook). unfold borrowed_count, open_records in Hcounts.
      simpl. lia.
    + rewrite count_filter_by_insert_not.
      * by apply Hcounts.
      * intros x Hx [? _]. congruence.
      * intros [? _]. congruence.
Qed.

(** The effect of a sweep: the records keep their book and stay open or
    returned. *)
Lemma ledger_ok_refresh (sel : BorrowRecord.t → Prop)
    `{!∀ r, Decision (sel r)} clock db table :
  ledger_ok db →
  ledger_ok (mkDB table (books db)
               (refresh_overdue sel clock (borrow_records db))).
Proof.
  intros [Hrefs Hcounts].
  assert (∀ rid r', refresh_overdue sel clock (borrow_records db) !! rid
                    = Some r' →
            ∃ r, borrow_records db !! rid = Some r
                 ∧ BorrowRecord.book_id r' = BorrowRecord.book_id r
                 ∧ (BorrowRecord.status r ≠ "returned" →
                    BorrowRecord.status r' ≠ "returned")
                 ∧ (BorrowRecord.status r' ≠ "returned" →
                    BorrowRecord.status r ≠ "returned")) as Hinv.
  { intros rid r'. rewrite refresh_overdue_lookup.
    destruct (borrow_records db !! rid) as [r|]; [|done]. simpl.
    intros [= <-]. exists r. split; [done|].
    destruct (decide (sel r)); [|done].
    unfold BorrowRecord.is_overdue.
    destruct (decide (BorrowRecord.status r = "returned")); [done|].
    destruct (bool_decide _); done. }
  split; simpl.
  - intros rid r' (r & Hr & -> & _)%Hinv. by eapply Hrefs.
  - intros bid b Hb. rewrite (Hcounts _ _ Hb).
    unfold borrowed_count, open_records. simpl. symmetry.
    apply count_filter_by_keys. intros rid. split.
    + intros [r' [(r & Hr & Hbook & _ & Hopen)%Hinv [Hbid Hst]]%lookup_filter_by].
      exists r. apply lookup_filter_by. split; [done|]. split; [congruence|auto].
    + intros [r [Hr [Hbid Hst]]%lookup_filter_by].
      destruct (refresh_overdue sel clock (borrow_records db) !! rid)
        as [r'|] eqn:Hr'.
      * destruct (Hinv _ _ Hr') as (r0 & Hr0 & Hbook & Hopen & _).
        assert (r0 = r) as -> by congruence.
        exists r'. apply lookup_filter_by. split; [done|].
        split; [congruence|auto].
      * rewrite refresh_overdue_lookup, Hr in Hr'. done.
Qed.

(** A book that comes into the catalog with all its copies available. *)
Lemma ledger_ok_add db table book :
  ledger_ok db →
  Book.available_quantity book = Book.quantity book →
  ledger_ok (mkDB table (add book (books db)) (borrow_records db)).
Proof.
  intros [Hrefs Hcounts] Hall.
  pose proof (next_id_fresh (books db)) as Hfresh.
  split; simpl; unfold add.
  - intros rid r Hr. apply lookup_insert_is_Some'. right. by eapply Hrefs.
  - intros bid b [[<- <-]|[Hne Hb]]%lookup_insert_Some.
    + rewrite (borrowed_count_records _ db) by done.
      rewrite borrowed_count_zero; [lia|].
      intros rid r Hr Hbook. apply Hrefs in Hr as [b Hb].
      rewrite Hbook in Hb. congruence.
    + rewrite (borrowed_count_records _ db) by done. by apply Hcounts.
Qed.

(** The effect of [edit_book]: the copies out stay as many. *)
Lemma ledger_ok_edit db table book_id book book' :
  ledger_ok db →
  books db !! book_id = Some book →
  Book.quantity book' - Book.available_quantity book'
  = Book.quantity book - Book.available_quantity book →
  ledger_ok (mkDB table (<[book_id := book']> (books db)) (borrow_records db)).
Proof.
  intros [Hrefs Hcounts] Hbook Hsame. split; simpl.
  - intros rid r Hr. apply lookup_insert_is_Some'. right. by eapply Hrefs.
  - intros bid b [[<- <-]|[Hne Hb]]%lookup_insert_Some.
    + rewrite Hsame. by apply Hcounts.
    + by apply Hcounts.
Qed.

(** The effect of [delete_book]: the book goes with its records. *)
Lemma ledger_ok_delete db table book_id :
  ledger_ok db →
  ledger_ok (mkDB table (delete book_id (books db))
               (filter_by (λ r, BorrowRecord.book_id r ≠ book_id)
                          (borrow_records db))).
Proof.
  intros [Hrefs Hcounts]. split; simpl.
  - intros rid r [Hr Hne]%lookup_filter_by.
    rewrite lookup_delete_ne by done. by eapply Hrefs.
  - intros bid b [Hne Hb]%lookup_delete_Some. rewrite (Hcounts _ _ Hb).
    unfold borrowed_count, open_records. simpl. symmetry.
    apply count_filter_by_keys. intros rid. split.
    + intros [r [[Hr _]%lookup_filter_by HP]%lookup_filter_by].
      exists r. by apply lookup_filter_by.
    + intros [r [Hr [Hbid Hst]]%lookup_filter_by]. exists r.
      apply lookup_filter_by. split; [|done].
      apply lookup_filter_by. split; [done|]. congruence.
Qed.

Lemma ledger_ok_add_all db table (new_books : list Book.t) :
  ledger_ok db →
  Forall (λ b, Book.available_quantity b = Book.quantity b) new_books →
  ledger_ok (mkDB table
               (foldl (λ t b, add b t) (books db) new_books)
               (borrow_records db)).
Proof.
  intros Hok Hall. revert db Hok.
  induction Hall as [|b l Hb Hl IH]; intros db Hok; simpl.
  - by apply ledger_ok_users.
  - apply (IH (mkDB table (add b (books db)) (borrow_records db))).
    by apply ledger_ok_add.
Qed.

Lemma add_all_Forall {A} (Q : A → Prop) (rows : list A) (table : gmap Z A) :
  Forall Q rows → map_Forall (λ _, Q) table →
  map_Forall (λ _, Q) (foldl (λ t row, add row t) table rows).
Proof.
  intros Hrows. revert table.
  induction Hrows as [|row rows Hrow _ IH]; intros table Htable; [done|].
  simpl. apply IH. by apply map_Forall_insert_2.
Qed.

Lemma sample_books_all_available :
  Forall (λ b, Book.available_quantity b = Book.quantity b) sample_books.
Proof. repeat constructor. Qed.

Lemma sample_books_nonneg :
  Forall (λ b, 0 ≤ Book.available_quantity b) sample_books.
Proof. repeat constructor; simpl; lia. Qed.

(** The bound from above is the ledger's: the copies out are not negative. *)
Lemma ledger_ok_upper db book_id book :
  ledger_ok db → books db !! book_id = Some book →
  Book.available_quantity book ≤ Book.quantity book.
Proof.
  intros [_ Hcounts] Hbook. specialize (Hcounts _ _ Hbook).
  pose proof (borrowed_count_nonneg book_id db). lia.
Qed.

Lemma counts_ok_nonneg db :
  ledger_ok db →
  (counts_ok db ↔
   map_Forall (λ _ b, 0 ≤ Book.available_quantity b) (books db)).
Proof.
  intros Hok. split.
  - intros Hcounts bid b Hb. by apply (Hcounts bid b).
  - intros Hnonneg bid b Hb. split; [by apply (Hnonneg bid b)|].
    by eapply ledger_ok_upper.
Qed.

Section Reachability.
  Context `{Framework}.

Lemma ledger_ok_init_db clock db : ledger_ok db → ledger_ok (init_db clock db).
Proof.
  intros Hok. unfold init_db. destruct (first (users db)); [done|].
  destruct (decide _); [done|].
  apply ledger_ok_add_all; [done | apply sample_books_all_available].
Qed.

(** Every request keeps the ledger and the catalog in agreement. *)
Lemma ledger_ok_step req db : ledger_ok db → ledger_ok (handle req db).2.
Proof.
  intros Hok. destruct req as [clock | session now form
    | session now1 now2 book_id | session now rid | session clock
    | session clock | session form | session book_id form
    | session book_id]; simpl.
  - by apply ledger_ok_init_db.
  - unfold register. destruct (current_user db session); [done|].
    destruct (RegistrationForm.validate db form); [|done].
    by apply ledger_ok_users.
  - destruct (borrow_book session now1 now2 book_id db) as [o db'] eqn:Hrun.
    destruct (decide (o = Ok)) as [->|Hne].
    + apply borrow_book_Ok in Hrun
        as (uid & cur & book & _ & _ & Hbook & _ & ->).
      by apply ledger_ok_borrow.
    + pose proof (borrow_book_unchanged session now1 now2 book_id db) as Hsame.
      rewrite Hrun in Hsame. simpl in *. by rewrite Hsame.
  - destruct (return_book session now rid db) as [o db'] eqn:Hrun.
    destruct (decide (o = Ok)) as [->|Hne].
    + apply return_book_Ok in Hrun
        as (uid & cur & r & book & _ & Hr & _ & Hopen & Hbook & ->).
      by eapply ledger_ok_return.
    + pose proof (return_book_unchanged session now rid db) as Hsame.
      rewrite Hrun in Hsame. simpl in *. by rewrite Hsame.
  - unfold student_dashboard.
    destruct (current_user db session) as [[uid cur]|]; [|done].
    destruct (decide _); [done|]. by apply ledger_ok_refresh.
  - unfold librarian_dashboard.
    destruct (librarian_required db session); [done|].
    by apply ledger_ok_refresh.
  - destruct (add_book session form db) as [o db'] eqn:Hrun.
    destruct (decide (o = Ok)) as [->|Hne].
    + apply add_book_Ok in Hrun as (q & _ & _ & ->).
      by apply (ledger_ok_add db).
    + pose proof (add_book_unchanged session form db) as Hsame.
      rewrite Hrun in Hsame. simpl in *. by rewrite Hsame.
  - destruct (edit_book session book_id form db) as [o db'] eqn:Hrun.
    destruct (decide (o = Ok)) as [->|Hne].
    + apply edit_book_Ok in Hrun as (book & q & Hbook & _ & _ & ->).
      eapply ledger_ok_edit; [done | done | simpl; lia].
    + pose proof (edit_book_unchanged session book_id form db) as Hsame.
      rewrite Hrun in Hsame. simpl in *. by rewrite Hsame.
  - destruct (delete_book session book_id db) as [o db'] eqn:Hrun.
    destruct (decide (o = Ok)) as [->|Hne].
    + apply delete_book_Ok in Hrun as ->. by apply ledger_ok_delete.
    + pose proof (delete_book_unchanged session book_id db) as Hsame.
      rewrite Hrun in Hsame. simpl in *. by rewrite Hsame.
Qed.

Lemma reachable_ledger_ok db : reachable db → ledger_ok db.
Proof.
  induction 1 as [|req db _ IH]; [apply ledger_ok_empty|].
  by apply ledger_ok_step.
Qed.

Lemma reachable_run reqs db : reachable db → reachable (run reqs db).
Proof.
  revert db. induction reqs as [|req reqs IH]; intros db Hdb; [done|].
  simpl. apply IH. by constructor.
Qed.

(** No request but an edit takes [available_quantity] below 0. *)
Lemma available_nonneg_step req db :
  (∀ session book_id form, req ≠ EditBook session book_id form) →
  map_Forall (λ _ b, 0 ≤ Book.available_quantity b) (books db) →
  map_Forall (λ _ b, 0 ≤ Book.available_quantity b) (books (handle req db).2).
Proof.
  intros Hreq Hnonneg. destruct req as [clock | session now form
    | session now1 now2 book_id | session now rid | session clock
    | session clock | session form | session book_id form
    | session book_id]; simpl.
  - unfold init_db. destruct (first (users db)); [done|].
    destruct (decide _); [done|].
    apply (add_all_Forall (λ b, 0 ≤ Book.available_quantity b));
      [apply sample_books_nonneg | done].
  - unfold register. destruct (current_user db session); [done|].
    by destruct (RegistrationForm.validate db form).
  - destruct (borrow_book session now1 now2 book_id db) as [o db'] eqn:Hrun.
    destruct (decide (o = Ok)) as [->|Hne].
    + apply borrow_book_Ok in Hrun
        as (uid & cur & book & _ & _ & Hbook & Havail & ->).
      simpl. apply map_Forall_insert_2; [simpl; lia | done].
    + pose proof (borrow_book_unchanged session now1 now2 book_id db) as Hsame.
      rewrite Hrun in Hsame. simpl in *. by rewrite Hsame.
  - destruct (return_book session now rid db) as [o db'] eqn:Hrun.
    destruct (decide (o = Ok)) as [->|Hne].
    + apply return_book_Ok in Hrun
        as (uid & cur & r & book & _ & Hr & _ & Hopen & Hbook & ->).
      simpl. apply map_Forall_insert_2; [|done].
      specialize (Hnonneg _ _ Hbook). simpl in *. lia.
    + pose proof (return_book_unchanged session now rid db) as Hsame.
      rewrite Hrun in Hsame. simpl in *. by rewrite Hsame.
  - unfold student_dashboard.
    destruct (current_user db session) as [[uid cur]|]; [|done].
    by destruct (decide _).
  - unfold librarian_dashboard.
    by destruct (librarian_required db session).
  - destruct (add_book session form db) as [o db'] eqn:Hrun.
    destruct (decide (o = Ok)) as [->|Hne].
    + apply add_book_Ok in Hrun as (q & _ & Hrange & ->).
      simpl. apply map_Forall_insert_2; [simpl; lia | done].
    + pose proof (add_book_unchanged session form db) as Hsame.
      rewrite Hrun in Hsame. simpl in *. by rewrite Hsame.
  - by destruct (Hreq session book_id form).
  - destruct (delete_book session book_id db) as [o db'] eqn:Hrun.
    destruct (decide (o = Ok)) as [->|Hne].
    + apply delete_book_Ok in Hrun as ->. simpl. by apply map_Forall_delete.
    + pose proof (delete_book_unchanged session book_id db) as Hsame.
      rewrite Hrun in Hsame. simpl in *. by rewrite Hsame.
Qed.

(** C1, as the code has it: in every store the application can reach and
    after every request, [available_quantity ≤ quantity] for every book;
    every request other than a catalog edit (borrow, return, catalog add,
    delete, registration, the sweeps, the sample data) keeps
    [0 ≤ available_quantity ≤ quantity]; a catalog edit keeps it exactly
    when the edit does not go through or the new total is at least the
    number of copies out. *)
Theorem available_quantity_bounds db req :
  reachable db →
  let db' := (handle req db).2 in
  (∀ book_id book, books db' !! book_id = Some book →
     Book.available_quantity book ≤ Book.quantity book)
  ∧ (counts_ok db →
     (∀ session book_id form, req ≠ EditBook session book_id form) →
     counts_ok db')
  ∧ (counts_ok db →
     ∀ session book_id form, req = EditBook session book_id form →
       (counts_ok db' ↔
        ((handle req db).1 = Ok →
         borrowed_count book_id db ≤ int_data (BookForm.quantity form)))).
Proof.
  intros Hreach db'.
  pose proof (reachable_ledger_ok _ Hreach) as Hledger.
  pose proof (ledger_ok_step req _ Hledger) as Hledger'.
  split; [intros bid b Hb; by eapply ledger_ok_upper|]. split.
  - intros Hcounts Hreq. apply counts_ok_nonneg; [done|].
    apply available_nonneg_step; [done|]. by apply counts_ok_nonneg.
  - intros Hcounts session book_id form ->. unfold db' in *. simpl in *.
    destruct (edit_book session book_id form db) as [o db1] eqn:Hrun.
    destruct (decide (o = Ok)) as [->|Hne]; simpl in *.
    + apply edit_book_Ok in Hrun as (book & q & Hbook & Hq & Hrange & ->).
      rewrite Hq. simpl.
      destruct Hledger as [_ Hout]. specialize (Hout _ _ Hbook).
      rewrite <- Hout. split.
      * intros Hcounts' _.
        destruct (Hcounts' book_id _ (lookup_insert_eq _ _ _)) as [Hlow _].
        simpl in Hlow. lia.
      * intros Hroom. specialize (Hroom eq_refl).
        apply counts_ok_nonneg; [done|]. simpl.
        apply map_Forall_insert_2; [simpl; lia|].
        intros bid b Hb. by apply (Hcounts bid b).
    + pose proof (edit_book_unchanged session book_id form db) as Hsame.
      rewrite Hrun in Hsame. simpl in Hsame. rewrite Hsame by done.
      split; [by intros _ ? | done].
Qed.

End Reachability.

Lemma reachable_seeded : reachable (H := stub_framework) seeded.
Proof.
  apply (reachable_step (H := stub_framework) (InitDb (λ _, 0)) empty_db).
  constructor.
Qed.

Lemma reachable_three_out : reachable (H := stub_framework) three_out.
Proof. apply reachable_run, reachable_seeded. Qed.

Lemma counts_ok_three_out : counts_ok three_out.
Proof.
  apply (bool_decide_eq_true_1
           (map_Forall (λ _ b, 0 ≤ Book.available_quantity b
                               ≤ Book.quantity b) (books three_out))).
  vm_compute. reflexivity.
Qed.

Lemma available_quantity_bounds_witness :
  reachable (H := stub_framework) three_out
  ∧ counts_ok three_out
  ∧ counts_ok (handle (H := stub_framework)
                 (ReturnBook (Some 2) (2 * day) 1) three_out).2
  ∧ counts_ok (handle (H := stub_framework)
                 (EditBook (Some 1) 1 (python_programming 3)) three_out).2.
Proof.
  split; [exact reachable_three_out|]. split; [exact counts_ok_three_out|].
  split.
  - apply (available_quantity_bounds (H := stub_framework) three_out
             (ReturnBook (Some 2) (2 * day) 1) reachable_three_out).
    + exact counts_ok_three_out.
    + intros session book_id form. discriminate.
  - apply (proj2 (proj2 (available_quantity_bounds (H := stub_framework)
             three_out (EditBook (Some 1) 1 (python_programming 3))
             reachable_three_out))
             counts_ok_three_out (Some 1) 1 (python_programming 3) eq_refl).
    intros _. vm_compute. discriminate.
Defined.

(** C1 as stated fails at a catalog edit: the store is reached by requests,
    every book is within its bounds, three copies of book 1 are out, and the
    edit of its total from 5 to 2 leaves it with [available_quantity = -1]. *)
Lemma available_quantity_counterexample :
  let db' := (handle (H := stub_framework)
                (EditBook (Some 1) 1 (python_programming 2)) three_out).2 in
  reachable (H := stub_framework) three_out
  ∧ counts_ok three_out
  ∧ Book.available_quantity <$> books db' !! 1 = Some (-1)
  ∧ ¬ counts_ok db'.
Proof.
  intros db'. split; [exact reachable_three_out|].
  split; [exact counts_ok_three_out|].
  assert (Book.available_quantity <$> books db' !! 1 = Some (-1)) as Hneg
    by (vm_compute; reflexivity).
  split; [exact Hneg|]. intros Hcounts.
  destruct (books db' !! 1) as [b|] eqn:Hb; [|done].
  injection Hneg as Hneg. destruct (Hcounts 1 b Hb) as [Hlow _]. lia.
Qed.

(** * Further properties of the views *)

(** ** What each request writes *)

Lemma first_Some_lookup {A} (q : gmap Z A) k x :
  first q = Some (k, x) → q !! k = Some x.
Proof.
  unfold first. intros Hhead. apply elem_of_map_to_list.
  destruct (map_to_list q) as [|[k' x'] l]; [done|].
  injection Hhead as -> ->. left.
Qed.

Lemma first_filter_by_None_iff {A} (P : A → Prop) `{!∀ x, Decision (P x)}
    (table : gmap Z A) :
  first (filter_by P table) = None ↔ ¬ ∃ k x, table !! k = Some x ∧ P x.
Proof.
  rewrite first_filter_by_None. split.
  - intros Hall (k & x & Hk & HP). by eapply Hall.
  - intros Hnone k x Hk HP. apply Hnone. eauto.
Qed.

Lemma next_id_add {A} (row : A) (table : gmap Z A) :
  add row table !! next_id table = Some row
  ∧ ∀ k, k ≠ next_id table → add row table !! k = table !! k.
Proof.
  unfold add. split; [apply lookup_insert_eq|].
  intros k Hk. by rewrite lookup_insert_ne.
Qed.

(** A borrow that goes through, with the checks it passed. *)
Lemma borrow_book_Ok_inv session now1 now2 book_id db db' :
  borrow_book session now1 now2 book_id db = (Ok, db') →
  ∃ uid cur book,
    session = Some uid ∧ users db !! uid = Some cur
    ∧ User.role cur = "student"
    ∧ books db !! book_id = Some book
    ∧ 1 ≤ Book.available_quantity book
    ∧ (∀ rid r, borrow_records db !! rid = Some r →
         BorrowRecord.user_id r = uid → BorrowRecord.book_id r = book_id →
         BorrowRecord.status r ≠ "borrowed")
    ∧ db' = mkDB (users db)
                 (<[book_id := Book.set_available_quantity book
                                 (Book.available_quantity book - 1)]> (books db))
                 (<[next_id (borrow_records db) :=
                      BorrowRecord.mk uid book_id now1 None
                                      (now2 + timedelta_days 14) "borrowed"]>
                    (borrow_records db)).
Proof.
  unfold borrow_book.
  destruct (current_user db session) as [[uid cur]|] eqn:Hcur; [|done].
  apply current_user_inv in Hcur as [-> Hu].
  destruct (decide (User.role cur ≠ "student")) as [|Hrole]; [done|].
  destruct (books db !! book_id) as [book|];
    [|by unfold no_row; destruct (decide _)].
  destruct (decide (Book.available_quantity book < 1)); [done|].
  destruct (first _) eqn:Hfirst; [done|].
  intros [= <-]. exists uid, cur, book.
  split; [done|]. split; [done|]. split; [by apply dec_stable|].
  split; [done|]. split; [lia|]. split; [|done].
  intros rid r Hr Huid Hbid Hstatus.
  by apply (proj1 (first_filter_by_None _ _) Hfirst rid r Hr).
Qed.

(** A registration that goes through, with the checks it passed. *)
Lemma RegistrationForm_validate_inv `{Framework} db form :
  RegistrationForm.validate db form = true →
  RegistrationForm.validate_username db (RegistrationForm.username form) = None
  ∧ RegistrationForm.validate_email db (RegistrationForm.email form) = None
  ∧ (RegistrationForm.role form = "student"
     ∨ RegistrationForm.role form = "librarian")
  ∧ 3 ≤ len (RegistrationForm.username form) ≤ 20
  ∧ 8 ≤ len (RegistrationForm.password form)
  ∧ RegistrationForm.confirm_password form = RegistrationForm.password form.
Proof.
  unfold RegistrationForm.validate, Length, valid_choice.
  rewrite !andb_true_iff, !bool_decide_eq_true.
  intros [[[[[[_ [Hlo Hhi]] Hname] [_ Hmail]] [_ [Hpw _]]] [_ Hconfirm]]
          [Hrole _]].
  repeat split; try done.
  unfold RegistrationForm.role_choices in Hrole.
  apply elem_of_cons in Hrole as [?|Hrole]; [by left|].
  apply elem_of_cons in Hrole as [?|Hrole]; [by right|].
  by apply elem_of_nil in Hrole.
Qed.

Lemma validate_email_None db address :
  RegistrationForm.validate_email db address = None ↔
  ∀ uid u, users db !! uid = Some u → User.email u ≠ address.
Proof.
  unfold RegistrationForm.validate_email.
  destruct (first _) eqn:Hfirst.
  - split; [done|]. intros Hall. exfalso.
    assert (first (filter_by (λ u, User.email u = address) (users db)) = None)
      as Hnone by exact (proj2 (first_filter_by_None _ _) Hall).
    congruence.
  - split; [|done]. intros _.
    exact (proj1 (first_filter_by_None _ _) Hfirst).
Qed.

Lemma register_inv `{Framework} session now form db :
  (register session now form db).2 = db
  ∨ (current_user db session = None
     ∧ RegistrationForm.validate db form = true
     ∧ register session now form db
       = (Ok, mkDB (add (User.mk (RegistrationForm.username form)
                                 (RegistrationForm.email form)
                                 (generate_password_hash
                                    (RegistrationForm.password form))
                                 (RegistrationForm.role form) now)
                        (users db))
                   (books db) (borrow_records db))).
Proof.
  unfold register. destruct (current_user db session); [by left|].
  destruct (RegistrationForm.validate db form); [by right | by left].
Qed.

(** An added book, with the checks the form passed. *)
Lemma add_book_Ok_inv session form db db' :
  add_book session form db = (Ok, db') →
  BookForm.validate form = true
  ∧ (∀ k b, books db !! k = Some b → Book.isbn b ≠ BookForm.isbn form)
  ∧ ∃ q, BookForm.quantity form = Some q ∧ 1 ≤ q ≤ 1000
         ∧ db' = mkDB (users db)
                   (add (Book.mk (BookForm.title form) (BookForm.author form)
                           (BookForm.isbn form) (BookForm.category form)
                           (BookForm.description form) "default_book.jpg" q q
                           (BookForm.publication_year form)) (books db))
                   (borrow_records db).
Proof.
  intros Hrun. pose proof Hrun as (q & Hq & Hrange & ->)%add_book_Ok.
  revert Hrun. unfold add_book.
  destruct (librarian_required db session) as [denied|] eqn:Hgate;
    [by destruct (librarian_required_inl _ _ _ Hgate) as [-> | ->]|].
  destruct (BookForm.validate form); [|done].
  destruct (first _) eqn:Hfirst; [done|]. intros _.
  split; [done|]. split; [|by exists q].
  exact (proj1 (first_filter_by_None _ _) Hfirst).
Qed.

(** An edit that goes through leaves no other book with the new ISBN. *)
Lemma edit_book_Ok_isbn session book_id form db db' :
  edit_book session book_id form db = (Ok, db') →
  ∀ k b, k ≠ book_id → books db !! k = Some b →
    Book.isbn b ≠ BookForm.isbn form.
Proof.
  unfold edit_book.
  destruct (librarian_required db session) as [denied|] eqn:Hgate;
    [by destruct (librarian_required_inl _ _ _ Hgate) as [-> | ->]|].
  destruct (books db !! book_id);
    [|by unfold no_row; destruct (decide _)].
  destruct (BookForm.validate form); [|done].
  destruct (first _) eqn:Hfirst; [done|]. intros _ k b Hne Hb Hisbn.
  apply first_None in Hfirst.
  assert (filter (λ kb : Z * Book.t, kb.1 ≠ book_id
                                     ∧ Book.isbn kb.2 = BookForm.isbn form)
                 (books db) !! k = Some b) as Hin
    by (by apply map_lookup_filter_Some).
  rewrite Hfirst in Hin. by rewrite lookup_empty in Hin.
Qed.

Section Steps.
Context `{Framework}.

(** The sample accounts, written to an empty table. *)
Lemma init_db_users clock :
  users (init_db clock empty_db)
  = <[4 := User.mk "bob_wilson" "bob@student.com"
             (generate_password_hash "student123") "student" (clock 4)]>
      (<[3 := User.mk "jane_smith" "jane@student.com"
                (generate_password_hash "student123") "student" (clock 3)]>
         (<[2 := User.mk "john_doe" "john@student.com"
                   (generate_password_hash "student123") "student" (clock 2)]>
            (<[1 := User.mk "admin" "admin@library.com"
                      (generate_password_hash "admin123") "librarian"
                      (clock 1)]> ∅))).
Proof. vm_compute. reflexivity. Qed.

(** The table [users] changes in two ways: a registration adds one account,
    with a role of the form's choices and a username and an email that no
    account has; [init_db] fills the empty table. *)
Lemma users_step req db :
  users (handle req db).2 = users db
  ∨ (∃ u, users (handle req db).2 = add u (users db)
          ∧ (User.role u = "student" ∨ User.role u = "librarian")
          ∧ (∀ i v, users db !! i = Some v →
               User.username v ≠ User.username u
               ∧ User.email v ≠ User.email u))
  ∨ (∃ clock, users db = ∅
              ∧ users (handle req db).2 = users (init_db clock empty_db)).
Proof.
  destruct req as [clock | session now form
    | session now1 now2 book_id | session now rid | session clock
    | session clock | session form | session book_id form
    | session book_id]; simpl.
  - destruct (first (users db)) eqn:Hfirst;
      [left; unfold init_db; by rewrite Hfirst|].
    destruct (decide (map_Exists
                (λ _ b, Book.isbn b ∈ Book.isbn <$> sample_books) (books db)))
      as [Hclash|Hfree].
    + left. unfold init_db. rewrite Hfirst. by rewrite decide_True.
    + right. right. exists clock. apply first_None in Hfirst.
      split; [done|]. unfold init_db at 1.
      rewrite Hfirst, decide_False by done.
      by replace (first ∅) with (@None (Z * User.t)) by done.
  - destruct (register_inv session now form db) as [->|(_ & Hvalid & ->)];
      [by left|].
    right. left. eexists. split; [done|]. simpl.
    apply RegistrationForm_validate_inv in Hvalid
      as (Hname & Hmail & Hrole & _).
    split; [done|]. intros i v Hv. split.
    + by eapply validate_username_None.
    + by eapply validate_email_None.
  - left. unfold borrow_book. repeat (case_match; simpl; try done).
  - left. unfold return_book. repeat (case_match; simpl; try done).
  - left. unfold student_dashboard. repeat (case_match; simpl; try done).
  - left. unfold librarian_dashboard. repeat (case_match; simpl; try done).
  - left. unfold add_book. repeat (case_match; simpl; try done).
  - left. unfold edit_book. repeat (case_match; simpl; try done).
  - left. unfold delete_book. repeat (case_match; simpl; try done).
Qed.

(** The table [books] changes in five ways. *)
Lemma books_step req db :
  books (handle req db).2 = books db
  ∨ (∃ bid book n,
       books db !! bid = Some book
       ∧ books (handle req db).2
         = <[bid := Book.set_available_quantity book n]> (books db))
  ∨ (∃ book,
       (∀ k b, books db !! k = Some b → Book.isbn b ≠ Book.isbn book)
       ∧ 1 ≤ Book.quantity book ≤ 1000
       ∧ books (handle req db).2 = add book (books db))
  ∨ (∃ bid old book,
       books db !! bid = Some old
       ∧ (∀ k b, k ≠ bid → books db !! k = Some b →
            Book.isbn b ≠ Book.isbn book)
       ∧ 1 ≤ Book.quantity book ≤ 1000
       ∧ books (handle req db).2 = <[bid := book]> (books db))
  ∨ (∃ bid, books (handle req db).2 = delete bid (books db))
  ∨ (¬ map_Exists (λ _ b, Book.isbn b ∈ Book.isbn <$> sample_books)
                  (books db)
     ∧ books (handle req db).2
       = foldl (λ t b, add b t) (books db) sample_books).
Proof.
  destruct req as [clock | session now form
    | session now1 now2 book_id | session now rid | session clock
    | session clock | session form | session book_id form
    | session book_id]; simpl.
  - unfold init_db. destruct (first (users db)); [by left|].
    destruct (decide _); [by left|]. by do 5 right.
  - left. unfold register. repeat (case_match; simpl; try done).
  - destruct (borrow_book session now1 now2 book_id db) as [o db'] eqn:Hrun.
    destruct (decide (o = Ok)) as [->|Hne].
    + apply borrow_book_Ok in Hrun
        as (uid & cur & book & _ & _ & Hbook & _ & ->).
      right. left. by eexists _, _, _.
    + pose proof (borrow_book_unchanged session now1 now2 book_id db) as Hsame.
      rewrite Hrun in Hsame. simpl in *. left. by rewrite Hsame.
  - destruct (return_book session now rid db) as [o db'] eqn:Hrun.
    destruct (decide (o = Ok)) as [->|Hne].
    + apply return_book_Ok in Hrun
        as (uid & cur & r & book & _ & _ & _ & _ & Hbook & ->).
      right. left. by eexists _, _, _.
    + pose proof (return_book_unchanged session now rid db) as Hsame.
      rewrite Hrun in Hsame. simpl in *. left. by rewrite Hsame.
  - left. unfold student_dashboard. repeat (case_match; simpl; try done).
  - left. unfold librarian_dashboard. repeat (case_match; simpl; try done).
  - destruct (add_book session form db) as [o db'] eqn:Hrun.
    destruct (decide (o = Ok)) as [->|Hne].
    + apply add_book_Ok_inv in Hrun as (_ & Hisbn & q & _ & Hrange & ->).
      right. right. left. eexists.
      split; [|split]; [| |reflexivity]; simpl; [done|lia].
    + pose proof (add_book_unchanged session form db) as Hsame.
      rewrite Hrun in Hsame. simpl in *. left. by rewrite Hsame.
  - destruct (edit_book session book_id form db) as [o db'] eqn:Hrun.
    destruct (decide (o = Ok)) as [->|Hne].
    + pose proof (edit_book_Ok_isbn _ _ _ _ _ Hrun) as Hisbn.
      apply edit_book_Ok in Hrun as (book & q & Hbook & _ & Hrange & ->).
      do 3 right. left. eexists _, _, _.
      split; [done|]. split; [|split]; [| |reflexivity]; simpl; [done|lia].
    + pose proof (edit_book_unchanged session book_id form db) as Hsame.
      rewrite Hrun in Hsame. simpl in *. left. by rewrite Hsame.
  - destruct (delete_book session book_id db) as [o db'] eqn:Hrun.
    destruct (decide (o = Ok)) as [->|Hne].
    + apply delete_book_Ok in Hrun as ->. do 4 right. left. by eexists.
    + pose proof (delete_book_unchanged session book_id db) as Hsame.
      rewrite Hrun in Hsame. simpl in *. left. by rewrite Hsame.
Qed.

(** The table [borrow_records] changes in four ways: a borrow adds a record,
    a return closes one, a sweep marks records that are 'borrowed', the
    deletion of a book takes its records away. *)
Lemma records_step req db :
  borrow_records (handle req db).2 = borrow_records db
  ∨ (∃ cur r,
       users db !! BorrowRecord.user_id r = Some cur
       ∧ User.role cur = "student"
       ∧ BorrowRecord.status r = "borrowed"
       ∧ BorrowRecord.return_date r = None
       ∧ (∀ rid r0, borrow_records db !! rid = Some r0 →
            BorrowRecord.user_id r0 = BorrowRecord.user_id r →
            BorrowRecord.book_id r0 = BorrowRecord.book_id r →
            BorrowRecord.status r0 ≠ "borrowed")
       ∧ borrow_records (handle req db).2 = add r (borrow_records db))
  ∨ (∃ rid r now,
       borrow_records db !! rid = Some r
       ∧ BorrowRecord.status r ≠ "returned"
       ∧ borrow_records (handle req db).2
         = <[rid := BorrowRecord.set_status
                      (BorrowRecord.set_return_date r now) "returned"]>
             (borrow_records db))
  ∨ (∃ mark : Z → BorrowRecord.t → bool,
       (∀ rid r, mark rid r = true → BorrowRecord.status r = "borrowed")
       ∧ ∀ rid, borrow_records (handle req db).2 !! rid
                = (λ r, if mark rid r
                        then BorrowRecord.set_status r "overdue" else r)
                  <$> borrow_records db !! rid)
  ∨ (∃ bid, borrow_records (handle req db).2
            = filter_by (λ r, BorrowRecord.book_id r ≠ bid)
                        (borrow_records db)).
Proof.
  assert (∀ (sel : BorrowRecord.t → Prop) `{!∀ r, Decision (sel r)} clock,
            (∀ r, sel r → BorrowRecord.status r = "borrowed") →
            ∃ mark : Z → BorrowRecord.t → bool,
              (∀ rid r, mark rid r = true → BorrowRecord.status r = "borrowed")
              ∧ ∀ rid, refresh_overdue sel clock (borrow_records db) !! rid
                       = (λ r, if mark rid r
                               then BorrowRecord.set_status r "overdue" else r)
                         <$> borrow_records db !! rid) as Hsweep.
  { intros sel ? clock Hsel.
    exists (λ rid r, bool_decide (sel r)
                     && BorrowRecord.is_overdue (clock rid) r).
    split.
    - intros rid r [Hr _]%andb_true_iff. apply bool_decide_eq_true in Hr. auto.
    - intros rid. rewrite refresh_overdue_lookup.
      destruct (borrow_records db !! rid) as [r|]; [|done]. simpl. f_equal.
      destruct (decide (sel r)).
      + by rewrite bool_decide_eq_true_2.
      + by rewrite bool_decide_eq_false_2. }
  destruct req as [clock | session now form
    | session now1 now2 book_id | session now rid | session clock
    | session clock | session form | session book_id form
    | session book_id]; simpl.
  - left. unfold init_db. repeat (case_match; simpl; try done).
  - left. unfold register. repeat (case_match; simpl; try done).
  - destruct (borrow_book session now1 now2 book_id db) as [o db'] eqn:Hrun.
    destruct (decide (o = Ok)) as [->|Hne].
    + apply borrow_book_Ok_inv in Hrun
        as (uid & cur & book & _ & Hu & Hrole & _ & _ & Hpair & ->).
      right. left. eexists cur, _. by repeat split.
    + pose proof (borrow_book_unchanged session now1 now2 book_id db) as Hsame.
      rewrite Hrun in Hsame. simpl in *. left. by rewrite Hsame.
  - destruct (return_book session now rid db) as [o db'] eqn:Hrun.
    destruct (decide (o = Ok)) as [->|Hne].
    + apply return_book_Ok in Hrun
        as (uid & cur & r & book & _ & Hr & _ & Hopen & _ & ->).
      right. right. left. by eexists _, _, _.
    + pose proof (return_book_unchanged session now rid db) as Hsame.
      rewrite Hrun in Hsame. simpl in *. left. by rewrite Hsame.
  - unfold student_dashboard.
    destruct (current_user db session) as [[uid cur]|]; [|by left].
    destruct (decide _); [by left|]. do 3 right. left. simpl.
    apply Hsweep. by intros r [_ ?].
  - unfold librarian_dashboard.
    destruct (librarian_required db session); [by left|].
    do 3 right. left. simpl. by apply Hsweep.
  - left. unfold add_book. repeat (case_match; simpl; try done).
  - left. unfold edit_book. repeat (case_match; simpl; try done).
  - destruct (delete_book session book_id db) as [o db'] eqn:Hrun.
    destruct (decide (o = Ok)) as [->|Hne].
    + apply delete_book_Ok in Hrun as ->. do 4 right. by eexists.
    + pose proof (delete_book_unchanged session book_id db) as Hsame.
      rewrite Hrun in Hsame. simpl in *. left. by rewrite Hsame.
Qed.

End Steps.

(** ** Invariants of the catalog *)

(** A row written under a key keeps the ISBNs apart when no other row has
    its ISBN. *)
Lemma isbn_unique_insert (table : gmap Z Book.t) (bid : Z) (book : Book.t) :
  (∀ i j b1 b2, table !! i = Some b1 → table !! j = Some b2 →
     Book.isbn b1 = Book.isbn b2 → i = j) →
  (∀ k b, k ≠ bid → table !! k = Some b → Book.isbn b ≠ Book.isbn book) →
  ∀ i j b1 b2, <[bid := book]> table !! i = Some b1 →
    <[bid := book]> table !! j = Some b2 →
    Book.isbn b1 = Book.isbn b2 → i = j.
Proof.
  intros Huniq Hother i j b1 b2
    [[<- <-]|[Hi H1]]%lookup_insert_Some [[<- <-]|[Hj H2]]%lookup_insert_Some
    Hisbn; try done.
  - by destruct (Hother j b2).
  - by destruct (Hother i b1).
  - by eapply Huniq.
Qed.

Lemma isbn_unique_add_all (new_books : list Book.t) (table : gmap Z Book.t) :
  NoDup (Book.isbn <$> new_books) →
  (∀ k b, table !! k = Some b → Book.isbn b ∉ Book.isbn <$> new_books) →
  (∀ i j b1 b2, table !! i = Some b1 → table !! j = Some b2 →
     Book.isbn b1 = Book.isbn b2 → i = j) →
  ∀ i j b1 b2,
    foldl (λ t b, add b t) table new_books !! i = Some b1 →
    foldl (λ t b, add b t) table new_books !! j = Some b2 →
    Book.isbn b1 = Book.isbn b2 → i = j.
Proof.
  revert table.
  induction new_books as [|a l IH]; intros table Hnodup Hfree Huniq; [done|].
  simpl in *. apply NoDup_cons in Hnodup as [Ha Hl].
  apply IH; [done | |]; unfold add.
  - intros k b [[_ <-]|[_ Hb]]%lookup_insert_Some; [done|].
    intros Hin. apply (Hfree k b Hb). by right.
  - apply isbn_unique_insert; [done|]. intros k b _ Hb Hisbn.
    apply (Hfree k b Hb). rewrite Hisbn. by left.
Qed.

Lemma sample_books_isbn_NoDup : NoDup (Book.isbn <$> sample_books).
Proof. apply (bool_decide_unpack _). vm_compute. exact I. Qed.

Lemma sample_books_quantities :
  Forall (λ b, 1 ≤ Book.quantity b ≤ 1000) sample_books.
Proof. repeat constructor; simpl; lia. Qed.

Section Invariants.
Context `{Framework}.

Lemma isbn_unique_step req db : isbn_unique db → isbn_unique (handle req db).2.
Proof.
  intros Huniq. unfold isbn_unique.
  destruct (books_step req db)
    as [-> | [(bid & book & n & Hbook & ->)
       | [(book & Hfree & _ & ->)
       | [(bid & old & book & _ & Hfree & _ & ->)
       | [[bid ->] | [Hfree ->]]]]]].
  - done.
  - apply isbn_unique_insert; [done|]. intros k b Hk Hb Hisbn.
    simpl in Hisbn. by destruct (Hk (Huniq k bid b book Hb Hbook Hisbn)).
  - apply isbn_unique_insert; [done|]. intros k b _. apply Hfree.
  - by apply isbn_unique_insert.
  - intros i j b1 b2 [_ H1]%lookup_delete_Some [_ H2]%lookup_delete_Some.
    by apply Huniq.
  - apply isbn_unique_add_all; [apply sample_books_isbn_NoDup | | done].
    intros k b Hb Hin. apply Hfree. by exists k, b.
Qed.

Lemma quantities_ok_step req db :
  quantities_ok db → quantities_ok (handle req db).2.
Proof.
  intros Hok. unfold quantities_ok.
  destruct (books_step req db)
    as [-> | [(bid & book & n & Hbook & ->)
       | [(book & _ & Hrange & ->)
       | [(bid & old & book & _ & _ & Hrange & ->)
       | [[bid ->] | [_ ->]]]]]].
  - done.
  - intros k b [[_ <-]|[_ Hb]]%lookup_insert_Some; [|by eapply Hok].
    simpl. by eapply Hok.
  - unfold add.
    intros k b [[_ <-]|[_ Hb]]%lookup_insert_Some; [done | by eapply Hok].
  - intros k b [[_ <-]|[_ Hb]]%lookup_insert_Some; [done | by eapply Hok].
  - intros k b [_ Hb]%lookup_delete_Some. by eapply Hok.
  - apply (add_all_Forall (λ b, 1 ≤ Book.quantity b ≤ 1000));
      [apply sample_books_quantities | done].
Qed.

(** X1: in every store the application can reach no two books have the same
    ISBN: [add_book] answers DuplicateISBN for an ISBN in use, [edit_book] is
    rolled back when another book holds the new ISBN, and [init_db] writes
    its eight books only when none of their ISBNs is in the catalog. *)
Theorem reachable_isbn_unique db : reachable db → isbn_unique db.
Proof.
  induction 1 as [|req db _ IH]; [|by apply isbn_unique_step].
  intros i j b1 b2 Hi. simpl in Hi. by rewrite lookup_empty in Hi.
Qed.

(** X2: in every store the application can reach the total of every book is
    between 1 and 1000, the range [BookForm] lets through, whatever borrows,
    returns and edits came before. *)
Theorem reachable_quantities_ok db : reachable db → quantities_ok db.
Proof.
  induction 1 as [|req db _ IH]; [|by apply quantities_ok_step].
  intros k b Hk. simpl in Hk. by rewrite lookup_empty in Hk.
Qed.

End Invariants.

Lemma reachable_isbn_unique_witness : isbn_unique three_out.
Proof.
  exact (reachable_isbn_unique (H := stub_framework) three_out
           reachable_three_out).
Defined.

Lemma reachable_quantities_ok_witness : quantities_ok three_out.
Proof.
  exact (reachable_quantities_ok (H := stub_framework) three_out
           reachable_three_out).
Defined.

(** ** Invariants of the account directory and of the ledger *)

Section Accounts.
Context `{Framework}.

Lemma init_db_accounts clock i u :
  users (init_db clock empty_db) !! i = Some u →
  (i = 1 ∧ User.username u = "admin" ∧ User.email u = "admin@library.com"
   ∧ User.role u = "librarian")
  ∨ (i = 2 ∧ User.username u = "john_doe" ∧ User.email u = "john@student.com"
     ∧ User.role u = "student")
  ∨ (i = 3 ∧ User.username u = "jane_smith"
     ∧ User.email u = "jane@student.com" ∧ User.role u = "student")
  ∨ (i = 4 ∧ User.username u = "bob_wilson" ∧ User.email u = "bob@student.com"
     ∧ User.role u = "student").
Proof.
  rewrite init_db_users.
  intros [[<- <-]|[_ Hu]]%lookup_insert_Some; [by do 3 right|].
  apply lookup_insert_Some in Hu as [[<- <-]|[_ Hu]]; [by right; right; left|].
  apply lookup_insert_Some in Hu as [[<- <-]|[_ Hu]]; [by right; left|].
  apply lookup_insert_Some in Hu as [[<- <-]|[_ Hu]]; [by left|].
  by rewrite lookup_empty in Hu.
Qed.

(** No request removes or rewrites an account. *)
Lemma users_persist req db uid u :
  users db !! uid = Some u → users (handle req db).2 !! uid = Some u.
Proof.
  intros Hu.
  destruct (users_step req db)
    as [-> | [(v & -> & _) | (clock & Hempty & _)]]; [done | |].
  - unfold add. rewrite lookup_insert_ne; [done|].
    intros Heq. pose proof (next_id_fresh (users db)) as Hfresh.
    rewrite Heq in Hfresh. congruence.
  - rewrite Hempty in Hu. by rewrite lookup_empty in Hu.
Qed.

Lemma accounts_unique_step req db :
  accounts_unique db → accounts_unique (handle req db).2.
Proof.
  intros Huniq. unfold accounts_unique.
  destruct (users_step req db)
    as [-> | [(v & -> & _ & Hnew) | (clock & _ & ->)]]; [done | |].
  - unfold add.
    intros i j u1 u2 [[<- <-]|[_ H1]]%lookup_insert_Some
      [[<- <-]|[_ H2]]%lookup_insert_Some Hsame; try done.
    + destruct (Hnew j u2 H2) as [? ?]. by destruct Hsame.
    + destruct (Hnew i u1 H1) as [? ?]. by destruct Hsame.
    + by eapply Huniq.
  - intros i j u1 u2 H1%init_db_accounts H2%init_db_accounts Hsame.
    destruct H1 as [(-> & Hn1 & He1 & _)|[(-> & Hn1 & He1 & _)
      |[(-> & Hn1 & He1 & _)|(-> & Hn1 & He1 & _)]]];
    destruct H2 as [(-> & Hn2 & He2 & _)|[(-> & Hn2 & He2 & _)
      |[(-> & Hn2 & He2 & _)|(-> & Hn2 & He2 & _)]]];
    try done; rewrite Hn1, Hn2, He1, He2 in Hsame; by destruct Hsame.
Qed.

Lemma roles_ok_step req db : roles_ok db → roles_ok (handle req db).2.
Proof.
  intros Hok. unfold roles_ok.
  destruct (users_step req db)
    as [-> | [(v & -> & Hrole & _) | (clock & _ & ->)]]; [done | |].
  - unfold add.
    intros uid u [[_ <-]|[_ Hu]]%lookup_insert_Some; [done | by eapply Hok].
  - intros uid u [(_ & _ & _ & ->)|[(_ & _ & _ & ->)
      |[(_ & _ & _ & ->)|(_ & _ & _ & ->)]]]%init_db_accounts; auto.
Qed.

Lemma records_ok_step req db : records_ok db → records_ok (handle req db).2.
Proof.
  intros Hok.
  assert (∀ r, (∃ u, users db !! BorrowRecord.user_id r = Some u
                     ∧ User.role u = "student") →
               ∃ u, users (handle req db).2 !! BorrowRecord.user_id r = Some u
                    ∧ User.role u = "student") as Howner.
  { intros r (u & Hu & Hrole). exists u. split; [|done].
    by apply users_persist. }
  unfold records_ok.
  destruct (records_step req db)
    as [-> | [(cur & r & Hcur & Hrole & Hst & Hret & _ & ->)
       | [(rid & r & now & Hr & Hopen & ->)
       | [(mark & Hmark & Hsweep) | [bid ->]]]]].
  - intros rid r Hr. destruct (Hok rid r Hr) as (? & ? & ?). auto.
  - unfold add.
    intros rid r' [[_ <-]|[_ Hr']]%lookup_insert_Some.
    + split; [by left|]. split; [|apply Howner; eauto].
      rewrite Hret, Hst. split; [by intros [? ?] | done].
    + destruct (Hok rid r' Hr') as (? & ? & ?). auto.
  - intros rid' r' [[_ <-]|[_ Hr']]%lookup_insert_Some.
    + destruct (Hok rid r Hr) as (_ & _ & Hu). simpl.
      split; [by do 2 right|]. split; [by split; eauto|]. by apply Howner.
    + destruct (Hok rid' r' Hr') as (? & ? & ?). auto.
  - intros rid r'. rewrite Hsweep.
    destruct (borrow_records db !! rid) as [r|] eqn:Hr; [|done]. simpl.
    intros [= <-]. destruct (Hok rid r Hr) as (Hst & Hret & Hu).
    destruct (mark rid r) eqn:Hm; [|auto].
    apply Hmark in Hm. simpl. split; [by right; left|].
    split; [|by apply Howner]. rewrite Hm in Hret.
    split; [by intros ?%Hret | done].
  - intros rid r [Hr _]%lookup_filter_by.
    destruct (Hok rid r Hr) as (? & ? & ?). auto.
Qed.

Lemma one_borrowed_per_pair_step req db :
  one_borrowed_per_pair db → one_borrowed_per_pair (handle req db).2.
Proof.
  intros Hone. unfold one_borrowed_per_pair.
  destruct (records_step req db)
    as [-> | [(cur & r & _ & _ & _ & _ & Hpair & ->)
       | [(rid & r & now & _ & _ & ->)
       | [(mark & Hmark & Hsweep) | [bid ->]]]]].
  - done.
  - unfold add.
    intros i j r1 r2 [[<- <-]|[_ H1]]%lookup_insert_Some
      [[<- <-]|[_ H2]]%lookup_insert_Some Hu Hb Hs1 Hs2; try done.
    + by destruct (Hpair j r2 H2).
    + by destruct (Hpair i r1 H1).
    + by eapply Hone.
  - intros i j r1 r2 [[_ <-]|[_ H1]]%lookup_insert_Some
      [[_ <-]|[_ H2]]%lookup_insert_Some Hu Hb Hs1 Hs2; try done.
    by eapply Hone.
  - assert (∀ k r', borrow_records (handle req db).2 !! k = Some r' →
              BorrowRecord.status r' = "borrowed" →
              borrow_records db !! k = Some r') as Hold.
    { intros k r'. rewrite Hsweep.
      destruct (borrow_records db !! k) as [r0|]; [|done]. simpl.
      intros [= <-]. by destruct (mark k r0). }
    intros i j r1 r2 H1 H2 Hu Hb Hs1 Hs2.
    apply (Hone i j r1 r2); auto.
  - intros i j r1 r2 [H1 _]%lookup_filter_by [H2 _]%lookup_filter_by.
    by apply Hone.
Qed.

(** X3: in every store the application can reach no two accounts have the
    same username and no two the same email: [register] lets a form through
    only when [validate_username] and [validate_email] find no account, and
    the sample accounts are written to an empty table. *)
Theorem reachable_accounts_unique db : reachable db → accounts_unique db.
Proof.
  induction 1 as [|req db _ IH]; [|by apply accounts_unique_step].
  intros i j u1 u2 Hi. simpl in Hi. by rewrite lookup_empty in Hi.
Qed.

(** X4: in every store the application can reach every account has the role
    'student' or 'librarian', the two choices of the registration form. *)
Theorem reachable_roles_ok db : reachable db → roles_ok db.
Proof.
  induction 1 as [|req db _ IH]; [|by apply roles_ok_step].
  intros uid u Hu. simpl in Hu. by rewrite lookup_empty in Hu.
Qed.

(** X5: in every store the application can reach every borrow record has one
    of the statuses 'borrowed', 'overdue' and 'returned', has a return date
    exactly when its status is 'returned', and belongs to an account of the
    directory whose role is 'student'. *)
Theorem reachable_records_ok db : reachable db → records_ok db.
Proof.
  induction 1 as [|req db _ IH]; [|by apply records_ok_step].
  intros rid r Hr. simpl in Hr. by rewrite lookup_empty in Hr.
Qed.

(** X6: in every store the application can reach an account has at most one
    record with status 'borrowed' for a book: this is what the duplicate
    check of [borrow_book] keeps (records with status 'overdue' are not
    counted by it). *)
Theorem reachable_one_borrowed_per_pair db :
  reachable db → one_borrowed_per_pair db.
Proof.
  induction 1 as [|req db _ IH]; [|by apply one_borrowed_per_pair_step].
  intros i j r1 r2 Hi. simpl in Hi. by rewrite lookup_empty in Hi.
Qed.

(** X7: no sequence of requests removes or changes an account: a row of
    [users] is found under its key, unchanged, after every run. *)
Theorem accounts_persist reqs db uid u :
  users db !! uid = Some u → users (run reqs db) !! uid = Some u.
Proof.
  revert db. induction reqs as [|req reqs IH]; intros db Hu; [done|].
  simpl. apply IH. by apply users_persist.
Qed.

End Accounts.

Lemma reachable_accounts_unique_witness : accounts_unique three_out.
Proof.
  exact (reachable_accounts_unique (H := stub_framework) three_out
           reachable_three_out).
Defined.

Lemma reachable_roles_ok_witness : roles_ok three_out.
Proof.
  exact (reachable_roles_ok (H := stub_framework) three_out
           reachable_three_out).
Defined.

Lemma reachable_records_ok_witness : records_ok three_out.
Proof.
  exact (reachable_records_ok (H := stub_framework) three_out
           reachable_three_out).
Defined.

Lemma reachable_one_borrowed_per_pair_witness : one_borrowed_per_pair three_out.
Proof.
  exact (reachable_one_borrowed_per_pair (H := stub_framework) three_out
           reachable_three_out).
Defined.

Lemma accounts_persist_witness :
  users seeded !! 2
  = Some (User.mk "john_doe" "john@student.com" "hash:student123" "student" 0)
  ∧ users (run (H := stub_framework)
             [Register None day new_librarian; BorrowBook (Some 2) day day 1;
              DeleteBook (Some 1) 2] seeded) !! 2
    = Some (User.mk "john_doe" "john@student.com" "hash:student123"
                    "student" 0).
Proof.
  assert (users seeded !! 2
          = Some (User.mk "john_doe" "john@student.com" "hash:student123"
                          "student" 0)) as Hu by (vm_compute; reflexivity).
  split; [exact Hu|].
  exact (accounts_persist (H := stub_framework) _ seeded 2 _ Hu).
Defined.

(** ** The history of a record *)

Section History.
Context `{Framework}.

(** X8: through any request a record keeps its account, its book, its borrow
    date and its due date; a record with status 'returned' is not changed at
    all, no record gets the status 'borrowed' back; and a record leaves the
    table only with its book, by [delete_book]. *)
Theorem record_history req db rid r :
  borrow_records db !! rid = Some r →
  match borrow_records (handle req db).2 !! rid with
  | None =>
      (∃ session, req = DeleteBook session (BorrowRecord.book_id r))
      ∧ books (handle req db).2 !! BorrowRecord.book_id r = None
  | Some r' =>
      BorrowRecord.user_id r' = BorrowRecord.user_id r
      ∧ BorrowRecord.book_id r' = BorrowRecord.book_id r
      ∧ BorrowRecord.borrow_date r' = BorrowRecord.borrow_date r
      ∧ BorrowRecord.due_date r' = BorrowRecord.due_date r
      ∧ (BorrowRecord.status r = "returned" → r' = r)
      ∧ (BorrowRecord.status r' = "borrowed" → r' = r)
  end.
Proof.
  intros Hr.
  assert (∀ (sel : BorrowRecord.t → Prop) `{!∀ x, Decision (sel x)} clock,
            (∀ x, sel x → BorrowRecord.status x = "borrowed") →
            match refresh_overdue sel clock (borrow_records db) !! rid with
            | None => False
            | Some r' =>
                BorrowRecord.user_id r' = BorrowRecord.user_id r
                ∧ BorrowRecord.book_id r' = BorrowRecord.book_id r
                ∧ BorrowRecord.borrow_date r' = BorrowRecord.borrow_date r
                ∧ BorrowRecord.due_date r' = BorrowRecord.due_date r
                ∧ (BorrowRecord.status r = "returned" → r' = r)
                ∧ (BorrowRecord.status r' = "borrowed" → r' = r)
            end) as Hsweep.
  { intros sel ? clock Hsel. rewrite refresh_overdue_lookup, Hr. simpl.
    destruct (decide (sel r)) as [Hs%Hsel|]; [|done].
    destruct (BorrowRecord.is_overdue (clock rid) r); [|done].
    simpl. repeat split; try done. by rewrite Hs. }
  destruct req as [clock | session now form
    | session now1 now2 book_id | session now rid0 | session clock
    | session clock | session form | session book_id form
    | session book_id]; simpl.
  - assert (borrow_records (init_db clock db) = borrow_records db) as ->
      by (unfold init_db; repeat (case_match; simpl; try done)).
    by rewrite Hr.
  - assert (borrow_records (register session now form db).2
            = borrow_records db) as ->
      by (unfold register; repeat (case_match; simpl; try done)).
    by rewrite Hr.
  - destruct (borrow_book session now1 now2 book_id db) as [o db'] eqn:Hrun.
    destruct (decide (o = Ok)) as [->|Hne].
    + apply borrow_book_Ok in Hrun as (uid & cur & book & _ & _ & _ & _ & ->).
      simpl. rewrite lookup_insert_ne, Hr; [done|].
      intros Heq. pose proof (next_id_fresh (borrow_records db)) as Hfresh.
      rewrite Heq in Hfresh. congruence.
    + pose proof (borrow_book_unchanged session now1 now2 book_id db) as Hsame.
      rewrite Hrun in Hsame. simpl in *. by rewrite Hsame, Hr.
  - destruct (return_book session now rid0 db) as [o db'] eqn:Hrun.
    destruct (decide (o = Ok)) as [->|Hne].
    + apply return_book_Ok in Hrun
        as (uid & cur & r0 & book & _ & Hr0 & _ & Hopen & _ & ->).
      simpl. destruct (decide (rid0 = rid)) as [->|Hother].
      * rewrite lookup_insert_eq. assert (r0 = r) as -> by congruence.
        simpl. by repeat split.
      * by rewrite lookup_insert_ne, Hr.
    + pose proof (return_book_unchanged session now rid0 db) as Hsame.
      rewrite Hrun in Hsame. simpl in *. by rewrite Hsame, Hr.
  - unfold student_dashboard.
    destruct (current_user db session) as [[uid cur]|];
      [|simpl; by rewrite Hr].
    destruct (decide _); [simpl; by rewrite Hr|]. simpl.
    specialize (Hsweep (λ x, BorrowRecord.user_id x = uid
                             ∧ BorrowRecord.status x = "borrowed") _ clock).
    destruct (refresh_overdue _ clock (borrow_records db) !! rid);
      [apply Hsweep; by intros ? [_ ?] | destruct Hsweep; by intros ? [_ ?]].
  - unfold librarian_dashboard.
    destruct (librarian_required db session); [simpl; by rewrite Hr|].
    simpl. specialize (Hsweep (λ x, BorrowRecord.status x = "borrowed") _ clock).
    destruct (refresh_overdue _ clock (borrow_records db) !! rid);
      [by apply Hsweep | by destruct Hsweep].
  - assert (borrow_records (add_book session form db).2 = borrow_records db)
      as -> by (unfold add_book; repeat (case_match; simpl; try done)).
    by rewrite Hr.
  - assert (borrow_records (edit_book session book_id form db).2
            = borrow_records db) as ->
      by (unfold edit_book; repeat (case_match; simpl; try done)).
    by rewrite Hr.
  - destruct (delete_book session book_id db) as [o db'] eqn:Hrun.
    destruct (decide (o = Ok)) as [->|Hne].
    + apply delete_book_Ok in Hrun as ->. simpl.
      destruct (decide (BorrowRecord.book_id r = book_id)) as [<-|Hother].
      * assert (filter_by (λ x, BorrowRecord.book_id x
                                ≠ BorrowRecord.book_id r)
                          (borrow_records db) !! rid = None) as ->.
        { apply eq_None_not_Some. intros [x [Hx Hne]%lookup_filter_by].
          assert (x = r) as -> by congruence. done. }
        split; [by exists session | apply lookup_delete_eq].
      * assert (filter_by (λ x, BorrowRecord.book_id x ≠ book_id)
                          (borrow_records db) !! rid = Some r) as ->
          by (by apply lookup_filter_by).
        done.
    + pose proof (delete_book_unchanged session book_id db) as Hsame.
      rewrite Hrun in Hsame. simpl in *. by rewrite Hsame, Hr.
Qed.

(** X9: in every store the application can reach, every borrow record is for
    a book of the catalog, and for every book the copies that are not
    available, [quantity - available_quantity], are as many as its records
    that are not returned. *)
Theorem reachable_ledger db :
  reachable db →
  (∀ rid r, borrow_records db !! rid = Some r →
     is_Some (books db !! BorrowRecord.book_id r))
  ∧ (∀ book_id book, books db !! book_id = Some book →
       Book.quantity book - Book.available_quantity book
       = count (filter_by (λ r, BorrowRecord.book_id r = book_id
                                ∧ BorrowRecord.status r ≠ "returned")
                          (borrow_records db))).
Proof.
  induction 1 as [|req db _ IH]; [apply ledger_ok_empty|].
  by apply ledger_ok_step.
Qed.


End History.

Lemma record_history_witness :
  (* the record of student 2 for book 1, through a sweep on day 20 *)
  borrow_records one_out !! 1
  = Some (BorrowRecord.mk 2 1 day None (15 * day) "borrowed")
  ∧ ∃ r', borrow_records one_overdue !! 1 = Some r'
          ∧ BorrowRecord.due_date r' = 15 * day
          ∧ BorrowRecord.user_id r' = 2.
Proof.
  assert (borrow_records one_out !! 1
          = Some (BorrowRecord.mk 2 1 day None (15 * day) "borrowed")) as Hr
    by (vm_compute; reflexivity).
  split; [exact Hr|].
  pose proof (record_history (H := stub_framework)
                (LibrarianDashboard (Some 1) (λ _, 20 * day)) one_out 1 _ Hr)
    as Hstep.
  change (handle (LibrarianDashboard (Some 1) (λ _, 20 * day)) one_out).2
    with one_overdue in Hstep.
  destruct (borrow_records one_overdue !! 1) as [r'|].
  - exists r'. destruct Hstep as (Hu & _ & _ & Hdue & _). by split.
  - destruct Hstep as [[session Hreq] _]. discriminate Hreq.
Defined.

Lemma reachable_ledger_witness :
  Book.quantity <$> books three_out !! 1 = Some 5
  ∧ Book.available_quantity <$> books three_out !! 1 = Some 2
  ∧ count (filter_by (λ r, BorrowRecord.book_id r = 1
                            ∧ BorrowRecord.status r ≠ "returned")
                     (borrow_records three_out)) = 3.
Proof.
  split; [vm_compute; reflexivity|]. split; [vm_compute; reflexivity|].
  destruct (reachable_ledger (H := stub_framework) three_out
              reachable_three_out) as [_ Hcount].
  rewrite <- (Hcount 1 (Book.set_available_quantity
                          (sample_book "Python Programming" "John Smith"
                             "9781234567897" "Technology"
                             "A comprehensive guide to Python programming for beginners and experts."
                             5 2023) 2)); [reflexivity|].
  vm_compute; reflexivity.
Defined.


(** ** What the pages show and what the views then do *)

Lemma timedelta_day_pos : 0 < timedelta_days 1.
Proof. unfold timedelta_days. lia. Qed.

(** X11: [borrow_book] goes through exactly when the page of [book_details]
    shows, to a student, a book that [is_available] and that the student
    has not borrowed ([user_has_borrowed] is false). *)
Theorem borrow_book_as_details_show session now1 now2 book_id db :
  (borrow_book session now1 now2 book_id db).1 = Ok ↔
  ∃ uid cur book,
    current_user db session = Some (uid, cur)
    ∧ User.role cur = "student"
    ∧ book_details session book_id db = inr (book, false)
    ∧ Book.is_available book = true.
Proof.
  unfold borrow_book, book_details, Book.is_available.
  destruct (current_user db session) as [[uid cur]|];
    [|split; [done | by intros (? & ? & ? & ? & _)]].
  destruct (decide (User.role cur ≠ "student")) as [Hother|Hrole].
  - split; [done|]. intros (? & ? & ? & [= <- <-] & ? & _). done.
  - apply dec_stable in Hrole. rewrite decide_True by done.
    destruct (books db !! book_id) as [book|];
      [|split; [unfold no_row; by destruct (decide _)
               | by intros (? & ? & ? & _ & _ & ? & _)]].
    destruct (decide (Book.available_quantity book < 1)) as [Hnone|Hsome].
    + split; [done|]. intros (? & ? & b & _ & _ & [= <-] & Hav).
      apply bool_decide_eq_true in Hav. lia.
    + destruct (first _).
      * split; [done|]. by intros (? & ? & ? & _ & _ & ? & _).
      * split; [|done]. intros _. exists uid, cur, book.
        repeat split; try done. apply bool_decide_eq_true. lia.
Qed.

(** X12: for a record that is not returned, [days_until_due] is negative
    exactly when [is_overdue] holds at the same reading of the clock; it is
    the number of whole days left, rounded down. *)
Theorem days_until_due_negative_iff_overdue now r :
  BorrowRecord.status r ≠ "returned" →
  (BorrowRecord.days_until_due now r < 0
   ↔ BorrowRecord.is_overdue now r = true)
  ∧ ∀ n, BorrowRecord.days_until_due now r = n
         ↔ n * timedelta_days 1 ≤ BorrowRecord.due_date r - now
           < (n + 1) * timedelta_days 1.
Proof.
  intros Hopen. pose proof timedelta_day_pos as Hday.
  unfold BorrowRecord.days_until_due, BorrowRecord.is_overdue.
  rewrite decide_False by done. rewrite bool_decide_eq_true.
  pose proof (Z.div_mod (BorrowRecord.due_date r - now) (timedelta_days 1))
    as Hdiv.
  pose proof (Z.mod_pos_bound (BorrowRecord.due_date r - now)
                (timedelta_days 1) Hday) as Hmod.
  split; [split; nia|]. intros n. split; [intros <-; nia|].
  intros Hn. symmetry. apply (Z.div_unique_pos _ _ n
    (BorrowRecord.due_date r - now - n * timedelta_days 1)); lia.
Qed.

Lemma days_until_due_negative_iff_overdue_witness :
  (* the record of [one_out], due on day 15 *)
  let r := BorrowRecord.mk 2 1 day None (15 * day) "borrowed" in
  BorrowRecord.days_until_due day r = 14
  ∧ BorrowRecord.days_until_due (day + 1) r = 13
  ∧ BorrowRecord.days_until_due (15 * day) r = 0
  ∧ BorrowRecord.is_overdue (15 * day) r = false
  ∧ BorrowRecord.days_until_due (15 * day + 1) r < 0.
Proof.
  intros r.
  assert (BorrowRecord.status r ≠ "returned") as Hopen by done.
  split; [vm_compute; reflexivity|]. split; [vm_compute; reflexivity|].
  split; [vm_compute; reflexivity|]. split; [vm_compute; reflexivity|].
  apply (proj1 (days_until_due_negative_iff_overdue (15 * day + 1) r Hopen)).
  vm_compute; reflexivity.
Defined.

(** ** Registration and the catalog views, case by case *)

Section Catalog.
Context `{Framework}.

(** X13: when the email of the form is that of an account, character for
    character, [validate_email] raises its ValidationError, the form does not
    validate and [register] leaves the store as it is. *)
Theorem register_duplicate_email db session now form uid u :
  users db !! uid = Some u →
  User.email u = RegistrationForm.email form →
  RegistrationForm.validate_email db (RegistrationForm.email form)
  = Some "Email already registered. Please use a different email."
  ∧ RegistrationForm.validate db form = false
  ∧ (register session now form db).2 = db
  ∧ (current_user db session = None →
     register session now form db = (ValidationError, db)).
Proof.
  intros Hu Hmail.
  assert (RegistrationForm.validate_email db (RegistrationForm.email form)
          = Some "Email already registered. Please use a different email.")
    as Htaken.
  { unfold RegistrationForm.validate_email.
    destruct (first _) eqn:Hfirst; [done|].
    by destruct (proj1 (first_filter_by_None _ _) Hfirst uid u Hu). }
  assert (RegistrationForm.validate db form = false) as Hinvalid.
  { unfold RegistrationForm.validate. rewrite Htaken.
    rewrite (bool_decide_eq_false_2 (Some _ = None)) by done.
    by rewrite !andb_false_r. }
  split; [done|]. split; [done|]. unfold register. rewrite Hinvalid.
  split; [by destruct (current_user db session) | by intros ->].
Qed.

End Catalog.

Lemma register_duplicate_email_witness :
  register (H := stub_framework) None day
    (RegistrationForm.mk "eve" "john@student.com" "password1" "password1"
                         "student") seeded
  = (ValidationError, seeded).
Proof.
  apply (register_duplicate_email (H := stub_framework) seeded None day _ 2
           (User.mk "john_doe" "john@student.com" "hash:student123"
                    "student" 0)).
  - vm_compute; reflexivity.
  - reflexivity.
  - reflexivity.
Defined.

(** X14: for a librarian and a form that validates, [add_book] answers
    DuplicateISBN and changes nothing when a book has the ISBN of the form,
    character for character; otherwise the book is written under a new key
    with all its copies available, and the other books, the accounts and the
    records stay as they are. *)
Theorem add_book_effect db session uid cur form :
  librarian_required db session = inr (uid, cur) →
  BookForm.validate form = true →
  ((∃ k b, books db !! k = Some b ∧ Book.isbn b = BookForm.isbn form) →
   add_book session form db = (DuplicateISBN, db))
  ∧ ((∀ k b, books db !! k = Some b → Book.isbn b ≠ BookForm.isbn form) →
     ∃ db' q,
       add_book session form db = (Ok, db')
       ∧ BookForm.quantity form = Some q ∧ 1 ≤ q ≤ 1000
       ∧ books db !! next_id (books db) = None
       ∧ books db' !! next_id (books db)
         = Some (Book.mk (BookForm.title form) (BookForm.author form)
                   (BookForm.isbn form) (BookForm.category form)
                   (BookForm.description form) "default_book.jpg" q q
                   (BookForm.publication_year form))
       ∧ (∀ k, k ≠ next_id (books db) → books db' !! k = books db !! k)
       ∧ users db' = users db
       ∧ borrow_records db' = borrow_records db).
Proof.
  intros Hgate Hvalid. unfold add_book. rewrite Hgate, Hvalid. split.
  - intros (k & b & Hb & Hisbn).
    destruct (first _) eqn:Hfirst; [done|].
    by destruct (proj1 (first_filter_by_None _ _) Hfirst k b Hb).
  - intros Hfree.
    destruct (first _) eqn:Hfirst.
    { assert (first (filter_by (λ b, Book.isbn b = BookForm.isbn form)
                               (books db)) = None) as Hnone
        by exact (proj2 (first_filter_by_None _ _) Hfree).
      congruence. }
    destruct (BookForm_validate_quantity _ Hvalid) as (q & Hq & Hrange).
    eexists _, q. split; [done|]. rewrite Hq. simpl.
    split; [done|]. split; [done|]. split; [apply next_id_fresh|].
    unfold add. split; [apply lookup_insert_eq|].
    split; [|done]. intros k Hk. by rewrite lookup_insert_ne.
Qed.

(** X15: for a librarian, a book of the catalog and a form that validates,
    [edit_book] ends in the 500 handler with nothing changed when another
    book holds the ISBN of the form; otherwise it goes through, the book
    takes the columns of the form and keeps its cover image, and the other
    books, the accounts and the records stay as they are. *)
Theorem edit_book_effect db session uid cur book_id book form :
  librarian_required db session = inr (uid, cur) →
  books db !! book_id = Some book →
  BookForm.validate form = true →
  ((∃ k b, k ≠ book_id ∧ books db !! k = Some b
           ∧ Book.isbn b = BookForm.isbn form) →
   edit_book session book_id form db = (ServerError, db))
  ∧ ((∀ k b, k ≠ book_id → books db !! k = Some b →
        Book.isbn b ≠ BookForm.isbn form) →
     ∃ db' book',
       edit_book session book_id form db = (Ok, db')
       ∧ books db' !! book_id = Some book'
       ∧ Book.title book' = BookForm.title form
       ∧ Book.author book' = BookForm.author form
       ∧ Book.isbn book' = BookForm.isbn form
       ∧ Book.category book' = BookForm.category form
       ∧ Book.description book' = BookForm.description form
       ∧ Book.publication_year book' = BookForm.publication_year form
       ∧ Book.cover_image book' = Book.cover_image book
       ∧ (∀ k, k ≠ book_id → books db' !! k = books db !! k)
       ∧ users db' = users db
       ∧ borrow_records db' = borrow_records db).
Proof.
  intros Hgate Hbook Hvalid. unfold edit_book.
  rewrite Hgate, Hbook, Hvalid. split.
  - intros (k & b & Hk & Hb & Hisbn).
    destruct (first _) eqn:Hfirst; [done|].
    apply first_None in Hfirst.
    assert (filter (λ kb : Z * Book.t, kb.1 ≠ book_id
                                       ∧ Book.isbn kb.2 = BookForm.isbn form)
                   (books db) !! k = Some b) as Hin
      by (by apply map_lookup_filter_Some).
    rewrite Hfirst in Hin. by rewrite lookup_empty in Hin.
  - intros Hfree.
    destruct (first _) as [[k b]|] eqn:Hfirst.
    { apply first_Some_lookup, map_lookup_filter_Some in Hfirst
        as [Hb [Hk Hisbn]]. by destruct (Hfree k b). }
    eexists _, _. split; [done|]. simpl.
    split; [apply lookup_insert_eq|]. simpl. repeat (split; [done|]).
    split; [|done]. intros k Hk. by rewrite lookup_insert_ne.
Qed.

(** X16: for a librarian and a book of the catalog, [delete_book] answers
    Conflict and changes nothing exactly when a record of the book has the
    status 'borrowed'; otherwise the book and the records of that book are
    gone, and every other book, every record of another book and the
    accounts stay as they are. *)
Theorem delete_book_effect db session uid cur book_id book :
  librarian_required db session = inr (uid, cur) →
  books db !! book_id = Some book →
  ((∃ rid r, borrow_records db !! rid = Some r
             ∧ BorrowRecord.book_id r = book_id
             ∧ BorrowRecord.status r = "borrowed") →
   delete_book session book_id db = (Conflict, db))
  ∧ ((∀ rid r, borrow_records db !! rid = Some r →
        BorrowRecord.book_id r = book_id →
        BorrowRecord.status r ≠ "borrowed") →
     ∃ db',
       delete_book session book_id db = (Ok, db')
       ∧ books db' !! book_id = None
       ∧ (∀ k, k ≠ book_id → books db' !! k = books db !! k)
       ∧ (∀ rid r, borrow_records db' !! rid = Some r ↔
            borrow_records db !! rid = Some r
            ∧ BorrowRecord.book_id r ≠ book_id)
       ∧ users db' = users db).
Proof.
  intros Hgate Hbook.
  rewrite (delete_book_librarian _ _ _ _ _ _ Hgate Hbook). split.
  - intros Hex. by rewrite decide_True.
  - intros Hnone. rewrite decide_False
      by (intros (rid & r & Hr & Hb & Hs); by destruct (Hnone rid r)).
    eexists. split; [done|]. simpl. split; [apply lookup_delete_eq|].
    split; [intros k Hk; by rewrite lookup_delete_ne|].
    split; [|done]. intros rid r.
    exact (lookup_filter_by (λ r, BorrowRecord.book_id r ≠ book_id) _ rid r).
Qed.

Lemma add_book_effect_witness :
  (add_book (Some 1) new_book seeded).1 = Ok
  ∧ Book.isbn <$> books (add_book (Some 1) new_book seeded).2 !! 9
    = Some "9780441172719"
  ∧ add_book (Some 1) (python_programming 2) seeded = (DuplicateISBN, seeded).
Proof.
  assert (librarian_required seeded (Some 1)
          = inr (1, User.mk "admin" "admin@library.com" "hash:admin123"
                            "librarian" 0)) as Hgate
    by (vm_compute; reflexivity).
  destruct (add_book_effect seeded (Some 1) _ _ new_book Hgate)
    as [_ Hnew]; [vm_compute; reflexivity|].
  destruct (add_book_effect seeded (Some 1) _ _ (python_programming 2) Hgate)
    as [Hdup _]; [vm_compute; reflexivity|].
  destruct Hnew as (db' & q & Hrun & _ & _ & _ & Hbook & _).
  { intros k b Hb Hisbn.
    assert (¬ map_Exists (λ _ b, Book.isbn b = BookForm.isbn new_book)
                         (books seeded)) as Hfree
      by (apply (bool_decide_eq_false_1 _); vm_compute; reflexivity).
    apply Hfree. by exists k, b. }
  rewrite Hrun. simpl. split; [done|]. split.
  - replace 9 with (next_id (books seeded)) by (vm_compute; reflexivity).
    by rewrite Hbook.
  - apply Hdup. eexists 1, _. split; vm_compute; reflexivity.
Defined.

Lemma edit_book_effect_witness :
  (edit_book (Some 1) 1 (python_programming 7) seeded).1 = Ok
  ∧ (edit_book (Some 1) 2 (python_programming 7) seeded)
    = (ServerError, seeded).
Proof.
  assert (librarian_required seeded (Some 1)
          = inr (1, User.mk "admin" "admin@library.com" "hash:admin123"
                            "librarian" 0)) as Hgate
    by (vm_compute; reflexivity).
  split.
  - assert (is_Some (books seeded !! 1)) as [b1 Hb1] by (vm_compute; eauto).
    destruct (edit_book_effect seeded (Some 1) _ _ 1 b1 (python_programming 7)
                Hgate Hb1) as [_ Hfree]; [vm_compute; reflexivity|].
    destruct Hfree as (db' & book' & Hrun & _); [|by rewrite Hrun].
    intros k b Hk Hb Hisbn.
    assert (¬ map_Exists (λ k b, k ≠ 1 ∧ Book.isbn b = "9781234567897")
                         (books seeded)) as Hno
      by (apply (bool_decide_eq_false_1 _); vm_compute; reflexivity).
    apply Hno. by exists k, b.
  - assert (is_Some (books seeded !! 2)) as [b2 Hb2] by (vm_compute; eauto).
    destruct (edit_book_effect seeded (Some 1) _ _ 2 b2 (python_programming 7)
                Hgate Hb2) as [Hclash _]; [vm_compute; reflexivity|].
    apply Hclash. eexists 1, _. split; [done|].
    split; vm_compute; reflexivity.
Defined.

Lemma delete_book_effect_witness :
  delete_book (Some 1) 1 one_out = (Conflict, one_out)
  ∧ (delete_book (Some 1) 2 one_out).1 = Ok
  ∧ books (delete_book (Some 1) 2 one_out).2 !! 2 = None.
Proof.
  assert (librarian_required one_out (Some 1)
          = inr (1, User.mk "admin" "admin@library.com" "hash:admin123"
                            "librarian" 0)) as Hgate
    by (vm_compute; reflexivity).
  split.
  - assert (is_Some (books one_out !! 1)) as [b1 Hb1] by (vm_compute; eauto).
    destruct (delete_book_effect one_out (Some 1) _ _ 1 b1 Hgate Hb1)
      as [Hconflict _].
    apply Hconflict. eexists 1, _. repeat split; vm_compute; reflexivity.
  - assert (is_Some (books one_out !! 2)) as [b2 Hb2] by (vm_compute; eauto).
    destruct (delete_book_effect one_out (Some 1) _ _ 2 b2 Hgate Hb2)
      as [_ Hgone].
    destruct Hgone as (db' & Hrun & Hnone & _); [|by rewrite Hrun].
    intros rid r Hr Hbook.
    assert (map_Forall (λ _ r, BorrowRecord.book_id r ≠ 2)
                       (borrow_records one_out)) as Hall
      by (apply (bool_decide_eq_true_1 _); vm_compute; reflexivity).
    by destruct (Hall rid r Hr).
Defined.

(** X17: the sweep of [student_dashboard] gives the status 'overdue' to
    exactly the student's own records whose status is 'borrowed' and whose
    due date is before the clock reading; the records of other accounts and
    the other tables stay as they are. *)
Theorem student_dashboard_refresh db session clock uid cur :
  current_user db session = Some (uid, cur) →
  User.role cur = "student" →
  let db' := (student_dashboard session clock db).2 in
  (student_dashboard session clock db).1 = Ok
  ∧ (∀ rid, borrow_records db' !! rid
            = (λ r, if decide (BorrowRecord.user_id r = uid
                               ∧ BorrowRecord.status r = "borrowed"
                               ∧ BorrowRecord.due_date r < clock rid)
                    then BorrowRecord.set_status r "overdue" else r)
              <$> borrow_records db !! rid)
  ∧ (∀ rid r, borrow_records db !! rid = Some r →
       BorrowRecord.user_id r ≠ uid → borrow_records db' !! rid = Some r)
  ∧ users db' = users db ∧ books db' = books db.
Proof.
  intros Hcur Hrole db'. unfold db', student_dashboard. rewrite Hcur.
  rewrite decide_False by (by intros ?). simpl.
  assert (∀ rid, refresh_overdue
                   (λ r, BorrowRecord.user_id r = uid
                         ∧ BorrowRecord.status r = "borrowed")
                   clock (borrow_records db) !! rid
                 = (λ r, if decide (BorrowRecord.user_id r = uid
                                    ∧ BorrowRecord.status r = "borrowed"
                                    ∧ BorrowRecord.due_date r < clock rid)
                         then BorrowRecord.set_status r "overdue" else r)
                   <$> borrow_records db !! rid) as Hlookup.
  { intros rid. rewrite refresh_overdue_lookup.
    destruct (borrow_records db !! rid) as [r|]; [|done]. simpl. f_equal.
    unfold BorrowRecord.is_overdue.
    destruct (decide (BorrowRecord.user_id r = uid
                      ∧ BorrowRecord.status r = "borrowed")) as [[Hu Hs]|Hno].
    - rewrite decide_False by (by rewrite Hs).
      destruct (decide (_ ∧ _ ∧ _)) as [(_ & _ & Hdue)|Hnot].
      + rewrite bool_decide_eq_true_2; [done | lia].
      + rewrite bool_decide_eq_false_2; [done|].
        intros ?. apply Hnot. repeat split; [done | done | lia].
    - rewrite decide_False; [done|]. intros (? & ? & _). by apply Hno. }
  split; [done|]. split; [done|]. split; [|done].
  intros rid r Hr Hother. rewrite Hlookup, Hr. simpl.
  rewrite decide_False; [done | by intros [? _]].
Qed.

Lemma student_dashboard_refresh_witness :
  (* on day 20 student 2 sees the own record marked; student 3 opening the
     dashboard leaves it as it is *)
  borrow_records (student_dashboard (Some 2) (λ _, 20 * day) one_out).2 !! 1
  = Some (BorrowRecord.mk 2 1 day None (15 * day) "overdue")
  ∧ borrow_records (student_dashboard (Some 3) (λ _, 20 * day) one_out).2 !! 1
    = Some (BorrowRecord.mk 2 1 day None (15 * day) "borrowed").
Proof.
  assert (borrow_records one_out !! 1
          = Some (BorrowRecord.mk 2 1 day None (15 * day) "borrowed")) as Hr
    by (vm_compute; reflexivity).
  split.
  - destruct (student_dashboard_refresh one_out (Some 2) (λ _, 20 * day) 2
                (User.mk "john_doe" "john@student.com" "hash:student123"
                         "student" 0))
      as (_ & Hmark & _); [vm_compute; reflexivity | reflexivity |].
    rewrite Hmark, Hr. vm_compute; reflexivity.
  - destruct (student_dashboard_refresh one_out (Some 3) (λ _, 20 * day) 3
                (User.mk "jane_smith" "jane@student.com" "hash:student123"
                         "student" 0))
      as (_ & _ & Hothers & _); [vm_compute; reflexivity | reflexivity |].
    apply Hothers; [exact Hr | simpl; lia].
Defined.

Section Gates.
Context `{Framework}.


(** X19: a request that does not come from a librarian's session leaves the
    catalog as it is but for [available_quantity]: no book is added or
    removed, and every book keeps its title, author, ISBN, category,
    description, cover image, total and publication year. *)
Theorem catalog_needs_librarian req db :
  (∀ clock, req ≠ InitDb clock) →
  (∀ uid u, current_user db (request_session req) = Some (uid, u) →
     User.role u ≠ "librarian") →
  ∀ book_id,
    (λ b, Book.set_available_quantity b 0)
      <$> books (handle req db).2 !! book_id
    = (λ b, Book.set_available_quantity b 0) <$> books db !! book_id.
Proof.
  intros Hinit Hrole.
  assert (∀ session, session = request_session req →
            ∃ denied, librarian_required db session = inl denied) as Hgate.
  { intros session ->. unfold librarian_required.
    destruct (current_user db (request_session req)) as [[uid u]|] eqn:Hcur;
      [|by eexists].
    rewrite decide_True by (by eapply Hrole). by eexists. }
  assert (∀ bid (book : Book.t) n k,
            books db !! bid = Some book →
            (λ b, Book.set_available_quantity b 0)
              <$> <[bid := Book.set_available_quantity book n]> (books db) !! k
            = (λ b, Book.set_available_quantity b 0) <$> books db !! k)
    as Hcount.
  { intros bid book n k Hbook. destruct (decide (bid = k)) as [<-|Hne].
    - by rewrite lookup_insert_eq, Hbook.
    - by rewrite lookup_insert_ne. }
  destruct req as [clock | session now form
    | session now1 now2 bid | session now rid | session clock
    | session clock | session form | session bid form
    | session bid]; simpl in *; intros k.
  - by destruct (Hinit clock).
  - unfold register. by repeat (case_match; simpl; try done).
  - destruct (borrow_book session now1 now2 bid db) as [o db'] eqn:Hrun.
    destruct (decide (o = Ok)) as [->|Hne].
    + apply borrow_book_Ok in Hrun as (? & ? & book & _ & _ & Hb & _ & ->).
      by apply Hcount.
    + pose proof (borrow_book_unchanged session now1 now2 bid db) as Hsame.
      rewrite Hrun in Hsame. simpl in *. by rewrite Hsame.
  - destruct (return_book session now rid db) as [o db'] eqn:Hrun.
    destruct (decide (o = Ok)) as [->|Hne].
    + apply return_book_Ok in Hrun
        as (? & ? & r & book & _ & _ & _ & _ & Hb & ->).
      by apply Hcount.
    + pose proof (return_book_unchanged session now rid db) as Hsame.
      rewrite Hrun in Hsame. simpl in *. by rewrite Hsame.
  - unfold student_dashboard. by repeat (case_match; simpl; try done).
  - unfold librarian_dashboard. by repeat (case_match; simpl; try done).
  - unfold add_book. by destruct (Hgate session eq_refl) as [denied ->].
  - unfold edit_book. by destruct (Hgate session eq_refl) as [denied ->].
  - unfold delete_book. by destruct (Hgate session eq_refl) as [denied ->].
Qed.

End Gates.


Lemma catalog_needs_librarian_witness :
  (* student 2 sends the edit form and a borrow *)
  books (handle (H := stub_framework)
           (EditBook (Some 2) 1 (python_programming 1000)) seeded).2 !! 1
  = books seeded !! 1
  ∧ Book.quantity
      <$> books (handle (H := stub_framework)
                   (BorrowBook (Some 2) day day 1) seeded).2 !! 1
    = Some 5.
Proof.
  split; [vm_compute; reflexivity|].
  pose proof (catalog_needs_librarian (H := stub_framework)
                (BorrowBook (Some 2) day day 1) seeded) as Hkeep.
  specialize (Hkeep ltac:(intros; discriminate)).
  assert (∀ uid u,
            current_user seeded
              (request_session (BorrowBook (Some 2) day day 1))
            = Some (uid, u) → User.role u ≠ "librarian") as Hrole.
  { intros uid u Hcur. vm_compute in Hcur. injection Hcur as <- <-. done. }
  specialize (Hkeep Hrole 1).
  destruct (books (handle (H := stub_framework)
                     (BorrowBook (Some 2) day day 1) seeded).2 !! 1)
    as [b|]; [|vm_compute in Hkeep; discriminate].
  destruct (books seeded !! 1) as [b0|] eqn:Hb0;
    [|vm_compute in Hb0; discriminate].
  simpl in *. injection Hkeep as Heq.
  assert (Book.quantity b = Book.quantity b0) as ->
    by (destruct b, b0; unfold Book.set_available_quantity in Heq;
        simpl in *; congruence).
  vm_compute in Hb0. injection Hb0 as <-. reflexivity.
Defined.

(** ** The ISBN field *)

Lemma utf8_bytes_remove_char c s :
  utf8_bytes (BookForm.remove_char c s)
  = filter (λ b, b ≠ Z.of_nat (nat_of_ascii c)) (utf8_bytes s).
Proof.
  induction s as [|a s IH]; [done|].
  change (utf8_bytes (String a s))
    with (Z.of_nat (nat_of_ascii a) :: utf8_bytes s).
  cbn [BookForm.remove_char].
  destruct (Ascii.eqb_spec a c) as [->|Hne].
  - by rewrite filter_cons_False by (by intros ?).
  - rewrite filter_cons_True.
    + change (utf8_bytes (String a (BookForm.remove_char c s)))
        with (Z.of_nat (nat_of_ascii a)
              :: utf8_bytes (BookForm.remove_char c s)).
      by rewrite IH.
    + intros Heq%Nat2Z.inj. apply Hne.
      by rewrite <- (ascii_nat_embedding a), <- (ascii_nat_embedding c), Heq.
Qed.

(** Taking an ASCII character out of the bytes takes it out of the
    characters: the bytes of the other characters are all 128 or more. *)
Lemma decode_utf8_filter c :
  0 ≤ c < 128 →
  ∀ n bs cps, (length bs ≤ n)%nat →
    decode_utf8 bs = Some cps →
    decode_utf8 (filter (λ b, b ≠ c) bs) = Some (filter (λ x, x ≠ c) cps).
Proof.
  intros Hc. induction n as [|n IH]; intros bs cps Hlen Hdec.
  { destruct bs; [|simpl in Hlen; lia]. by injection Hdec as <-. }
  destruct bs as [|b0 r0]; [by injection Hdec as <-|].
  simpl in Hlen. cbn [decode_utf8] in Hdec.
  destruct (b0 <? 128) eqn:H0.
  { destruct (decode_utf8 r0) as [cps0|] eqn:Hr0; [|done].
    injection Hdec as <-.
    assert (decode_utf8 (filter (λ b, b ≠ c) r0)
            = Some (filter (λ x, x ≠ c) cps0)) as Hrest
      by (apply (IH r0); [lia | done]).
    destruct (decide (b0 = c)) as [->|Hne].
    - by rewrite !filter_cons_False by (by intros ?).
    - rewrite !filter_cons_True by done. cbn [decode_utf8].
      by rewrite H0, Hrest. }
  apply Z.ltb_ge in H0.
  rewrite (filter_cons_True (λ b, b ≠ c) b0) by lia.
  destruct r0 as [|b1 r1]; [done|]. simpl in Hlen.
  destruct ((192 <=? b0) && (b0 <? 224)) eqn:H2.
  { destruct (continuation b1 && (128 <=? (b0 - 192) * 64 + (b1 - 128)))
      eqn:Hok; [|done].
    destruct (decode_utf8 r1) as [cps1|] eqn:Hr1; [|done].
    injection Hdec as <-.
    apply andb_true_iff in Hok as [Hb1 Hbig]. pose proof Hb1 as Hcont.
    unfold continuation in Hb1. apply andb_true_iff in Hb1 as [Hb1 _].
    apply Z.leb_le in Hb1, Hbig.
    rewrite (filter_cons_True (λ b, b ≠ c) b1) by lia.
    rewrite (filter_cons_True (λ x, x ≠ c)) by lia.
    cbn [decode_utf8].
    rewrite (proj2 (Z.ltb_ge b0 128) H0), H2, Hcont.
    rewrite (proj2 (Z.leb_le _ _) Hbig). simpl.
    rewrite (IH r1 cps1); [done | lia | done]. }
  destruct r1 as [|b2 r2]; [done|]. simpl in Hlen.
  destruct ((224 <=? b0) && (b0 <? 240)) eqn:H3.
  { match type of Hdec with
    | (if ?cond then _ else _) = _ => destruct cond eqn:Hok; [|done]
    end.
    destruct (decode_utf8 r2) as [cps2|] eqn:Hr2; [|done].
    injection Hdec as <-.
    pose proof Hok as Hcond.
    apply andb_true_iff in Hok as [Hok _].
    apply andb_true_iff in Hok as [Hok Hbig].
    apply andb_true_iff in Hok as [Hb1 Hb2].
    unfold continuation in Hb1, Hb2.
    apply andb_true_iff in Hb1 as [Hb1 _].
    apply andb_true_iff in Hb2 as [Hb2 _].
    apply Z.leb_le in Hb1, Hb2, Hbig.
    rewrite (filter_cons_True (λ b, b ≠ c) b1) by lia.
    rewrite (filter_cons_True (λ b, b ≠ c) b2) by lia.
    rewrite (filter_cons_True (λ x, x ≠ c)) by lia.
    cbn [decode_utf8].
    rewrite (proj2 (Z.ltb_ge b0 128) H0), H2, H3, Hcond. simpl.
    rewrite (IH r2 cps2); [done | lia | done]. }
  destruct r2 as [|b3 r3]; [done|]. simpl in Hlen.
  destruct ((240 <=? b0) && (b0 <? 248)) eqn:H4; [|done].
  match type of Hdec with
  | (if ?cond then _ else _) = _ => destruct cond eqn:Hok; [|done]
  end.
  destruct (decode_utf8 r3) as [cps3|] eqn:Hr3; [|done].
  injection Hdec as <-.
  pose proof Hok as Hcond.
  apply andb_true_iff in Hok as [Hok _].
  apply andb_true_iff in Hok as [Hok Hbig].
  apply andb_true_iff in Hok as [Hok Hb3].
  apply andb_true_iff in Hok as [Hb1 Hb2].
  unfold continuation in Hb1, Hb2, Hb3.
  apply andb_true_iff in Hb1 as [Hb1 _].
  apply andb_true_iff in Hb2 as [Hb2 _].
  apply andb_true_iff in Hb3 as [Hb3 _].
  apply Z.leb_le in Hb1, Hb2, Hb3, Hbig.
  rewrite (filter_cons_True (λ b, b ≠ c) b1) by lia.
  rewrite (filter_cons_True (λ b, b ≠ c) b2) by lia.
  rewrite (filter_cons_True (λ b, b ≠ c) b3) by lia.
  rewrite (filter_cons_True (λ x, x ≠ c)) by lia.
  cbn [decode_utf8].
  rewrite (proj2 (Z.ltb_ge b0 128) H0), H2, H3, H4, Hcond. simpl.
  rewrite (IH r3 cps3); [done | lia | done].
Qed.

(** [str.replace(c, '')] on the characters, for an ASCII [c]. *)
Lemma code_points_remove_char c s :
  (nat_of_ascii c < 128)%nat →
  valid_utf8 s →
  valid_utf8 (BookForm.remove_char c s)
  ∧ code_points (BookForm.remove_char c s)
    = filter (λ x, x ≠ Z.of_nat (nat_of_ascii c)) (code_points s).
Proof.
  intros Hc [cps Hcps]. unfold valid_utf8, code_points.
  rewrite utf8_bytes_remove_char, Hcps.
  rewrite (decode_utf8_filter (Z.of_nat (nat_of_ascii c)) ltac:(lia)
             (length (utf8_bytes s)) (utf8_bytes s) cps); [|done|done].
  by split.
Qed.

Lemma isdigit_code_points s :
  BookForm.isdigit s = true ↔
  code_points s ≠ [] ∧ Forall (λ c, isdigit_char c = true) (code_points s).
Proof.
  unfold BookForm.isdigit.
  assert (∀ l, forallb isdigit_char l = true
               ↔ Forall (λ c, isdigit_char c = true) l) as Hall.
  { induction l as [|a l IH]; simpl.
    - split; [constructor | done].
    - by rewrite andb_true_iff, IH, Forall_cons. }
  destruct (code_points s) as [|c cs].
  - split; [done | by intros [? _]].
  - rewrite Hall. split; [by intros ? | by intros [_ ?]].
Qed.

(** The characters left once the separators are taken out are the digits,
    when the string has digits and separators only. *)
Lemma isbn_clean_digits (cs : list Z) :
  Forall (λ c, isdigit_char c = true)
         (filter (λ x, x ≠ 32) (filter (λ x, x ≠ 45) cs))
  ↔ Forall (λ c, isdigit_char c = true ∨ c = 45 ∨ c = 32) cs.
Proof.
  induction cs as [|a cs IH]; [split; constructor|].
  rewrite Forall_cons, <- IH.
  destruct (decide (a = 45)) as [->|Hh].
  - rewrite filter_cons_False by (by intros ?).
    split; [intros ?; split; [by right; left | done] | by intros [_ ?]].
  - rewrite filter_cons_True by done.
    destruct (decide (a = 32)) as [->|Hs].
    + rewrite filter_cons_False by (by intros ?).
      split; [intros ?; split; [by right; right | done] | by intros [_ ?]].
    + rewrite filter_cons_True by done. rewrite Forall_cons.
      split; [intros [? ?]; split; [by left | done]|].
      intros [[?|[?|?]] ?]; by split.
Qed.

Lemma isbn_clean_filter (cs : list Z) :
  Forall (λ c, isdigit_char c = true ∨ c = 45 ∨ c = 32) cs →
  filter (λ x, x ≠ 32) (filter (λ x, x ≠ 45) cs)
  = filter (λ c, isdigit_char c = true) cs.
Proof.
  induction 1 as [|a cs Ha _ IH]; [done|].
  destruct Ha as [Hd|[->| ->]].
  - assert (a ≠ 45) by (intros ->; done).
    assert (a ≠ 32) by (intros ->; done).
    rewrite (filter_cons_True (λ x, x ≠ 45)) by done.
    rewrite !filter_cons_True by done. by rewrite IH.
  - rewrite (filter_cons_False (λ x, x ≠ 45)) by (by intros ?).
    by rewrite (filter_cons_False (λ c, isdigit_char c = true)) by done.
  - rewrite (filter_cons_True (λ x, x ≠ 45)) by done.
    rewrite (filter_cons_False (λ x, x ≠ 32)) by (by intros ?).
    by rewrite (filter_cons_False (λ c, isdigit_char c = true)) by done.
Qed.

Lemma validate_isbn_None data :
  valid_utf8 data →
  let cs := code_points data in
  BookForm.validate_isbn data = None ↔
  Forall (λ c, isdigit_char c = true ∨ c = 45 ∨ c = 32) cs
  ∧ (length (filter (λ c, isdigit_char c = true) cs) = 10%nat
     ∨ length (filter (λ c, isdigit_char c = true) cs) = 13%nat).
Proof.
  intros Hvalid cs. unfold BookForm.validate_isbn.
  set (clean := BookForm.remove_char " " (BookForm.remove_char "-" data)).
  assert (code_points clean
          = filter (λ x, x ≠ 32) (filter (λ x, x ≠ 45) cs)) as Hclean.
  { unfold clean.
    destruct (code_points_remove_char "-" data) as [Hv1 Heq1];
      [vm_compute; lia | done |].
    destruct (code_points_remove_char " " (BookForm.remove_char "-" data))
      as [_ Heq2]; [vm_compute; lia | done |].
    by rewrite Heq2, Heq1. }
  assert (len clean ∈ [10; 13] ↔
          length (code_points clean) = 10%nat
          ∨ length (code_points clean) = 13%nat) as Hlen.
  { unfold len. rewrite !elem_of_cons, elem_of_nil. lia. }
  destruct (BookForm.isdigit clean) eqn:Hdigit; simpl.
  - apply isdigit_code_points in Hdigit as [_ Hall]. rewrite Hclean in Hall.
    apply isbn_clean_digits in Hall.
    rewrite Hclean, (isbn_clean_filter _ Hall) in Hlen.
    destruct (bool_decide (len clean ∈ [10; 13])) eqn:Hin; simpl.
    + apply bool_decide_eq_true in Hin. split; [|done]. intros _.
      split; [done | by apply Hlen].
    + apply bool_decide_eq_false in Hin. split; [done|].
      intros [_ Hcount]. exfalso. by apply Hin, Hlen.
  - split; [done|]. intros [Hall Hcount]. exfalso.
    assert (BookForm.isdigit clean = true) as Htrue; [|congruence].
    apply isdigit_code_points. rewrite Hclean, (isbn_clean_filter _ Hall).
    split; [|by apply isbn_clean_digits in Hall;
               rewrite (isbn_clean_filter cs) in Hall
                 by (by apply isbn_clean_digits)].
    intros Hnil. rewrite Hnil in Hcount. simpl in Hcount. lia.
Qed.

(** X20: [validate_isbn] lets a string through exactly when its characters
    are digits (in the sense of [str.isdigit], so of any script), hyphens
    and spaces only, and 10 or 13 of them are digits. *)
Theorem validate_isbn_accepts data :
  valid_utf8 data →
  let cs := code_points data in
  BookForm.validate_isbn data = None ↔
  Forall (λ c, isdigit_char c = true ∨ c = 45 ∨ c = 32) cs
  ∧ (length (filter (λ c, isdigit_char c = true) cs) = 10%nat
     ∨ length (filter (λ c, isdigit_char c = true) cs) = 13%nat).
Proof. intros Hvalid. by apply validate_isbn_None. Qed.

Lemma validate_isbn_accepts_witness :
  BookForm.validate_isbn "0-441-17271-7" = None
  ∧ BookForm.validate_isbn "０１２３４５６７８９" = None
  ∧ BookForm.validate_isbn "044117271X"
    = Some "ISBN should contain only numbers".
Proof.
  split; [|split; vm_compute; reflexivity].
  apply (proj2 (validate_isbn_accepts "0-441-17271-7"
                  ltac:(vm_compute; eauto))).
  split; [|left; vm_compute; reflexivity].
  apply (bool_decide_unpack _). vm_compute. exact I.
Defined.

Lemma filter_full_length {A} (P : A → Prop) `{!∀ x, Decision (P x)}
    (l : list A) :
  length (filter P l) = length l → filter P l = l.
Proof.
  induction l as [|a l IH]; [done|]. rewrite filter_cons.
  destruct (decide (P a)); simpl.
  - intros [= Hlen]. by rewrite IH.
  - intros Hlen. pose proof (length_filter P l). lia.
Qed.

Lemma DataRequired_valid data : DataRequired data = true → valid_utf8 data.
Proof.
  unfold DataRequired, code_points, valid_utf8.
  by destruct (decode_utf8 (utf8_bytes data)).
Qed.

(** X21: an ISBN that the book form lets through has at most 13
    characters: 10 digits with at most three hyphens or spaces among them,
    or 13 digits and nothing else, so an ISBN-13 written with hyphens is
    turned down. *)
Theorem isbn_field_accepts form :
  BookForm.validate form = true →
  let cs := code_points (BookForm.isbn form) in
  let digits := filter (λ c, isdigit_char c = true) cs in
  Forall (λ c, isdigit_char c = true ∨ c = 45 ∨ c = 32) cs
  ∧ ((length digits = 10%nat ∧ (length cs ≤ 13)%nat)
     ∨ (length digits = 13%nat ∧ cs = digits)).
Proof.
  intros Hvalid cs digits. unfold BookForm.validate in Hvalid.
  rewrite !andb_true_iff in Hvalid.
  destruct Hvalid as [[[[[[_ _] [[Hreq Hlength] Hisbn]] _] _] _] _].
  apply bool_decide_eq_true in Hisbn.
  apply validate_isbn_None in Hisbn as [Hall Hcount];
    [|by apply DataRequired_valid].
  unfold Length in Hlength. apply andb_true_iff in Hlength as [_ Hmax].
  apply bool_decide_eq_true in Hmax. unfold len in Hmax.
  pose proof (length_filter (λ c, isdigit_char c = true) cs) as Hle.
  unfold digits, cs in *.
  split; [done|]. destruct Hcount as [H10|H13].
  - left. split; [done | lia].
  - right. split; [done|]. symmetry. apply filter_full_length. lia.
Qed.

Lemma isbn_field_accepts_witness :
  BookForm.validate new_book = true
  ∧ BookForm.validate_isbn "978-0-441-17271-9" = None
  ∧ BookForm.validate
      (BookForm.mk "Dune" "Frank Herbert" "978-0-441-17271-9" "Fiction" ""
                   (Some 2) (Some 1965)) = false
  ∧ length (code_points (BookForm.isbn new_book)) = 13%nat.
Proof.
  assert (BookForm.validate new_book = true) as Hvalid
    by (vm_compute; reflexivity).
  split; [exact Hvalid|]. split; [vm_compute; reflexivity|].
  split; [vm_compute; reflexivity|].
  destruct (isbn_field_accepts new_book Hvalid) as [_ [[H10 _]|[H13 Heq]]].
  - vm_compute in H10. discriminate.
  - rewrite Heq. exact H13.
Defined.

(** ** Borrowing and returning, one after the other *)

(** X22: a return frees a copy: when [return_book] goes through for a record
    of a book whose [available_quantity] was not negative, the next
    [borrow_book] for that book by any student who has no record of it with
    status 'borrowed' goes through. *)
Theorem return_frees_a_copy db db1 session now rid r book uid cur now1 now2 :
  return_book session now rid db = (Ok, db1) →
  borrow_records db !! rid = Some r →
  books db !! BorrowRecord.book_id r = Some book →
  0 ≤ Book.available_quantity book →
  users db !! uid = Some cur →
  User.role cur = "student" →
  (∀ k x, borrow_records db1 !! k = Some x →
     BorrowRecord.user_id x = uid →
     BorrowRecord.book_id x = BorrowRecord.book_id r →
     BorrowRecord.status x ≠ "borrowed") →
  (borrow_book (Some uid) now1 now2 (BorrowRecord.book_id r) db1).1 = Ok.
Proof.
  intros (uid0 & cur0 & r0 & book0 & _ & Hr0 & _ & _ & Hb0 & ->)%return_book_Ok
    Hr Hbook Havail Hu Hrole Hfree.
  assert (r0 = r) as -> by congruence.
  assert (book0 = book) as -> by congruence.
  unfold borrow_book. rewrite (current_user_Some _ uid cur) by done.
  rewrite decide_False by (by intros ?). simpl.
  rewrite lookup_insert_eq. simpl. rewrite decide_False by lia.
  destruct (first _) eqn:Hfirst; [|done].
  assert (first (filter_by
                   (λ x, BorrowRecord.user_id x = uid
                         ∧ BorrowRecord.book_id x = BorrowRecord.book_id r
                         ∧ BorrowRecord.status x = "borrowed")
                   (<[rid := BorrowRecord.set_status
                               (BorrowRecord.set_return_date r now)
                               "returned"]> (borrow_records db))) = None)
    as Hnone.
  { apply first_filter_by_None. intros k x Hx (? & ? & ?).
    by apply (Hfree k x). }
  congruence.
Qed.

(** X23: the last copy: when [borrow_book] goes through for a book with one
    copy available, every further [borrow_book] for that book by a student
    is answered Unavailable and changes nothing, until a copy comes back. *)
Theorem last_copy_taken db db1 session now1 now2 book_id book uid cur t1 t2 :
  borrow_book session now1 now2 book_id db = (Ok, db1) →
  books db !! book_id = Some book →
  Book.available_quantity book = 1 →
  users db !! uid = Some cur →
  User.role cur = "student" →
  borrow_book (Some uid) t1 t2 book_id db1 = (Unavailable, db1).
Proof.
  intros (uid0 & cur0 & book0 & _ & _ & Hb0 & _ & ->)%borrow_book_Ok
    Hbook Hone Hu Hrole.
  assert (book0 = book) as -> by congruence.
  unfold borrow_book. rewrite (current_user_Some _ uid cur) by done.
  rewrite decide_False by (by intros ?). simpl.
  rewrite lookup_insert_eq. simpl. rewrite decide_True by lia. done.
Qed.

Lemma return_frees_a_copy_witness :
  (* the three copies of book 3 are out; student 2 returns, student 3, whose
     own record is overdue by then, borrows again *)
  let db := (librarian_dashboard (Some 1) (λ _, 20 * day) none_left).2 in
  let db1 := (return_book (Some 2) (21 * day) 1 db).2 in
  (borrow_book (Some 3) (21 * day) (21 * day) 3 db).1 = Unavailable
  ∧ (borrow_book (Some 3) (21 * day) (21 * day) 3 db1).1 = Ok.
Proof.
  intros db db1. split; [vm_compute; reflexivity|].
  assert (is_Some (books db !! 3)) as [b Hb] by (vm_compute; eauto).
  assert (Book.available_quantity b = 0) as Hzero
    by (vm_compute in Hb; injection Hb as <-; reflexivity).
  apply (return_frees_a_copy db db1 (Some 2) (21 * day) 1
           (BorrowRecord.mk 2 3 day None (15 * day) "overdue") b 3
           (User.mk "jane_smith" "jane@student.com" "hash:student123"
                    "student" 0)).
  - vm_compute; reflexivity.
  - vm_compute; reflexivity.
  - exact Hb.
  - lia.
  - vm_compute; reflexivity.
  - reflexivity.
  - intros k x Hx Hu _.
    assert (map_Forall (λ _ x, BorrowRecord.status x ≠ "borrowed")
                       (borrow_records db1)) as Hall
      by (apply (bool_decide_eq_true_1 _); vm_compute; reflexivity).
    exact (Hall k x Hx).
Defined.

Lemma last_copy_taken_witness :
  (* two copies of book 3 are out, student 4 takes the third *)
  let db := run (H := stub_framework)
              [BorrowBook (Some 2) day day 3; BorrowBook (Some 3) day day 3]
              seeded in
  borrow_book (Some 2) (2 * day) (2 * day) 3
    (borrow_book (Some 4) day day 3 db).2
  = (Unavailable, (borrow_book (Some 4) day day 3 db).2).
Proof.
  intros db.
  assert (is_Some (books db !! 3)) as [b Hb] by (vm_compute; eauto).
  apply (last_copy_taken db _ (Some 4) day day 3 b 2
           (User.mk "john_doe" "john@student.com" "hash:student123"
                    "student" 0)).
  - vm_compute; reflexivity.
  - exact Hb.
  - vm_compute in Hb. injection Hb as <-. reflexivity.
  - vm_compute; reflexivity.
  - reflexivity.
Defined.
